(** * claude-code-router-switcher: the configuration store, the endpoint
    probe and the model reconciliation, embedded from
    [claude_code_router_switcher/config_manager.py] and
    [claude_code_router_switcher/cli.py]. *)

From Stdlib Require Import ZArith String Ascii List.
From stdpp Require Import base option list gmap strings.

Set Warnings "-register-all".

Local Open Scope string_scope.
Local Open Scope Z_scope.
Local Open Scope list_scope.

(** ** Python [str] methods used by the program.

    A string is the sequence of its characters, each a code point below
    256; [isspace] is [str.isspace] on these: the twelve characters that
    [strip] removes. *)
Module PyStr.

(** [s.endswith(suffix)]: [s] is [suffix], or what follows its first
    character ends with [suffix]. *)
Fixpoint endswith (s suffix : string) : bool :=
  String.eqb s suffix
  || match s with
     | EmptyString => false
     | String _ s' => endswith s' suffix
     end.

(** [s.startswith(prefix)] *)
Fixpoint startswith (s prefix : string) : bool :=
  match prefix, s with
  | EmptyString, _ => true
  | String _ _, EmptyString => false
  | String a prefix', String b s' => Ascii.eqb a b && startswith s' prefix'
  end.

(** [sub in s] *)
Fixpoint contains (sub s : string) : bool :=
  startswith s sub
  || match s with
     | EmptyString => false
     | String _ s' => contains sub s'
     end.

(** [s.find(sub)], with [None] for Python's [-1]. *)
Fixpoint find (sub s : string) : option nat :=
  if startswith s sub then Some 0%nat
  else match s with
       | EmptyString => None
       | String _ s' => S <$> find sub s'
       end.

(** [s[:n]] for [0 <= n] *)
Definition take (n : nat) (s : string) : string := substring 0 n s.

(** [s[:-n]] for [0 < n] *)
Definition drop_last (n : nat) (s : string) : string :=
  substring 0 (String.length s - n) s.

Fixpoint rstrip_with (p : ascii → bool) (s : string) : string :=
  match s with
  | EmptyString => EmptyString
  | String c s' =>
      match rstrip_with p s' with
      | EmptyString => if p c then EmptyString else String c EmptyString
      | r => String c r
      end
  end.

Fixpoint lstrip_with (p : ascii → bool) (s : string) : string :=
  match s with
  | EmptyString => EmptyString
  | String c s' => if p c then lstrip_with p s' else s
  end.

Definition isspace (c : ascii) : bool :=
  let n := nat_of_ascii c in
  ((9 <=? n) && (n <=? 13) || (28 <=? n) && (n <=? 32)
   || (n =? 133) || (n =? 160))%nat.

(** [s.strip()] *)
Definition strip (s : string) : string :=
  lstrip_with isspace (rstrip_with isspace s).

(** [s.rstrip('/')] *)
Definition rstrip_slash (s : string) : string :=
  rstrip_with (Ascii.eqb "/") s.

(** [s.split(",", 1)]: the parts around the first comma, when there is one. *)
Fixpoint split1 (c : ascii) (s : string) : option (string * string) :=
  match s with
  | EmptyString => None
  | String a s' =>
      if Ascii.eqb a c then Some (EmptyString, s')
      else '(h, t) ← split1 c s'; Some (String a h, t)
  end.

(** [s.rsplit(",", 1)]: the parts around the last comma, when there is one. *)
Fixpoint rsplit1 (c : ascii) (s : string) : option (string * string) :=
  match s with
  | EmptyString => None
  | String a s' =>
      match rsplit1 c s' with
      | Some (h, t) => Some (String a h, t)
      | None => if Ascii.eqb a c then Some (EmptyString, s') else None
      end
  end.

Definition comma : ascii := ",".

End PyStr.

(** ** JSON values, as [json.load] and [response.json()] produce them.
    Numbers are the integers; an object is the list of its items in
    insertion order, keys distinct. *)
Inductive json : Type :=
| JNull
| JBool (b : bool)
| JInt (n : Z)
| JStr (s : string)
| JList (items : list json)
| JDict (items : list (string * json)).

(** Python truth value of a JSON value ([if v:], [not v], [v and ...]). *)
Definition truthy (v : json) : bool :=
  match v with
  | JNull => false
  | JBool b => b
  | JInt n => negb (n =? 0)
  | JStr s => negb (String.eqb s "")
  | JList l => match l with [] => false | _ => true end
  | JDict l => match l with [] => false | _ => true end
  end.

Definition is_str (s : string) (v : json) : bool :=
  match v with JStr t => String.eqb t s | _ => false end.

Fixpoint dict_get (k : string) (items : list (string * json)) : option json :=
  match items with
  | [] => None
  | (k', v) :: rest => if String.eqb k' k then Some v else dict_get k rest
  end.

(** ** The configuration document *)

(** One entry of ["Providers"]. A field read with [.get] is [None] when the
    key is missing. *)
Record Provider : Type := mkProvider {
  name : option string;
  api_base_url : option string;
  api_key : option string;
  models : option (list string);
  other_fields : list (string * json)
}.

(** The document: the two sections the program reads, either of which may be
    missing, and the remaining top-level keys. *)
Record Config : Type := mkConfig {
  Router : option (gmap string json);
  Providers : option (list Provider);
  other_keys : list (string * json)
}.

(** The backing file ([None]: it does not exist) and the documents written
    to it so far, oldest first. *)
Record Store : Type := mkStore {
  file : option Config;
  writes : list Config
}.

(** ** Exceptions and the state-and-exception monad of the program *)

Inductive value_error : Type :=
| DuplicateName (new_name : option string)
| DuplicateBaseUrl (new_base_url : option string)
| ProviderNotFound (provider_name : string)
| ModelNotFound (model_name : string).

(** What [console.print] showed right before [sys.exit(1)]. *)
Inductive exit_message : Type :=
| InvalidRouterType (router_type : string)
| ModelNotInProvider (model_name provider_name : string)
| ModelNotInAnyProvider (model_name : string)
| ModelInMultipleProviders (model_name : string) (matching : list string)
| LongContextMustBeSet
| ErrorFileNotFound
| ErrorValue (e : value_error)
| UnexpectedError.

Inductive exn : Type :=
| FileNotFoundError
| ValueError (e : value_error)
| KeyError (key : string)
| AttributeError
| TypeError
| RequestException
| CalledProcessError
| OSError
| SystemExit (shown : exit_message).

Inductive outcome (A : Type) : Type :=
| Return (a : A)
| Raise (e : exn).
Arguments Return {A} a.
Arguments Raise {A} e.

Definition M (A : Type) : Type := Store → outcome A * Store.

Global Instance M_ret : MRet M := λ A a s, (Return a, s).
Global Instance M_bind : MBind M := λ A B f m s,
  match m s with
  | (Return a, s') => f a s'
  | (Raise e, s') => (Raise e, s')
  end.

Definition raise {A : Type} (e : exn) : M A := λ s, (Raise e, s).

(** [try: body except <handled>: handler] *)
Definition try_except {A : Type} (body : M A) (handler : exn → option (M A)) : M A :=
  λ s, match body s with
       | (Return a, s') => (Return a, s')
       | (Raise e, s') =>
           match handler e with
           | Some h => h s'
           | None => (Raise e, s')
           end
       end.

(** [models.remove(x)] for an [x] that occurs: the first occurrence goes. *)
Fixpoint list_remove_first (x : string) (l : list string) : list string :=
  match l with
  | [] => []
  | y :: l' => if decide (y = x) then l' else y :: list_remove_first x l'
  end.

(** ** config_manager.py *)
Module ConfigManager.

Definition load_config : M Config := λ s,
  match file s with
  | None => (Raise FileNotFoundError, s)
  | Some config => (Return config, s)
  end.

Definition save_config (config : Config) : M unit := λ s,
  (Return (), {| file := Some config; writes := writes s ++ [config] |}).

Definition get_router_config : M (gmap string json) :=
  config ← load_config;
  mret (default ∅ (Router config)).

Definition update_router_config (router_config : gmap string json) : M unit :=
  config ← load_config;
  save_config {| Router := Some router_config;
                 Providers := Providers config;
                 other_keys := other_keys config |}.

Definition get_providers : M (list Provider) :=
  config ← load_config;
  mret (default [] (Providers config)).

(** The loop of [_check_duplicate_provider]. *)
Fixpoint check_duplicate_loop (new_name new_base_url : option string)
    (providers : list Provider) : option value_error :=
  match providers with
  | [] => None
  | provider :: rest =>
      if decide (name provider = new_name) then Some (DuplicateName new_name)
      else if decide (api_base_url provider = new_base_url)
           then Some (DuplicateBaseUrl new_base_url)
           else check_duplicate_loop new_name new_base_url rest
  end.

Definition _check_duplicate_provider (new_provider : Provider) : M unit :=
  providers ← get_providers;
  match check_duplicate_loop (name new_provider) (api_base_url new_provider) providers with
  | Some e => raise (ValueError e)
  | None => mret ()
  end.

Definition add_provider (provider : Provider) : M unit :=
  _ ← _check_duplicate_provider provider;
  config ← load_config;
  let providers := default [] (Providers config) in
  save_config {| Router := Router config;
                 Providers := Some (providers ++ [provider]);
                 other_keys := other_keys config |}.

(** The older copy of the module, [claude-code-router-switcher/], has no
    duplicate check. *)
Definition legacy_add_provider (provider : Provider) : M unit :=
  config ← load_config;
  let providers := default [] (Providers config) in
  save_config {| Router := Router config;
                 Providers := Some (providers ++ [provider]);
                 other_keys := other_keys config |}.

Definition with_models (provider : Provider) (ms : list string) : Provider :=
  {| name := name provider; api_base_url := api_base_url provider;
     api_key := api_key provider; models := Some ms;
     other_fields := other_fields provider |}.

(** How the loop of [add_model_to_provider] ends. *)
Inductive add_model_result : Type :=
| NoSuchProvider
| AlreadyPresent
| Appended (providers : list Provider).

Fixpoint add_model_loop (provider_name model_name : string)
    (providers : list Provider) : add_model_result :=
  match providers with
  | [] => NoSuchProvider
  | provider :: rest =>
      if decide (name provider = Some provider_name) then
        let ms := default [] (models provider) in
        if decide (model_name ∈ ms) then AlreadyPresent
        else Appended (with_models provider (ms ++ [model_name]) :: rest)
      else
        match add_model_loop provider_name model_name rest with
        | Appended rest' => Appended (provider :: rest')
        | r => r
        end
  end.

Definition add_model_to_provider (provider_name model_name : string) : M unit :=
  config ← load_config;
  let providers := default [] (Providers config) in
  match add_model_loop provider_name model_name providers with
  | Appended providers' =>
      save_config {| Router := Router config;
                     Providers := Some providers';
                     other_keys := other_keys config |}
  | AlreadyPresent => mret ()
  | NoSuchProvider => raise (ValueError (ProviderNotFound provider_name))
  end.

(** [d[k] = v] on a dict kept as its items in insertion order. *)
Fixpoint dict_set {V : Type} (k : string) (v : V) (d : list (string * V)) : list (string * V) :=
  match d with
  | [] => [(k, v)]
  | (k', v') :: d' => if decide (k' = k) then (k, v) :: d' else (k', v') :: dict_set k v d'
  end.

Fixpoint dict_lookup {V : Type} (k : string) (d : list (string * V)) : option V :=
  match d with
  | [] => None
  | (k', v) :: d' => if decide (k' = k) then Some v else dict_lookup k d'
  end.

Fixpoint get_all_models_loop (providers : list Provider)
    (acc : list (string * list string)) : outcome (list (string * list string)) :=
  match providers with
  | [] => Return acc
  | provider :: rest =>
      match name provider with
      | None => Raise (KeyError "name")
      | Some n => get_all_models_loop rest (dict_set n (default [] (models provider)) acc)
      end
  end.

Definition get_all_models : M (list (string * list string)) :=
  providers ← get_providers;
  match get_all_models_loop providers [] with
  | Return d => mret d
  | Raise e => raise e
  end.

Definition find_providers_for_model (model_name : string) : M (list string) :=
  models_by_provider ← get_all_models;
  mret (fst <$> filter (λ item, model_name ∈ item.2) models_by_provider).

Definition validate_provider_model (provider_name model_name : string) : M bool :=
  models_by_provider ← get_all_models;
  let provider_models := default [] (dict_lookup provider_name models_by_provider) in
  mret (bool_decide (model_name ∈ provider_models)).

Definition delete_provider (provider_name : string) : M unit :=
  config ← load_config;
  let providers := default [] (Providers config) in
  let providers' := filter (λ p, name p ≠ Some provider_name) providers in
  if decide (length providers' = length providers) then
    raise (ValueError (ProviderNotFound provider_name))
  else
    save_config {| Router := Router config;
                   Providers := Some providers';
                   other_keys := other_keys config |}.

(** The body of the loop of [delete_model], for one provider. *)
Definition delete_model_in (model_name : string) (provider : Provider) : Provider :=
  let ms := default [] (models provider) in
  if decide (model_name ∈ ms) then with_models provider (list_remove_first model_name ms)
  else provider.

Definition has_model (model_name : string) (provider : Provider) : bool :=
  bool_decide (model_name ∈ default [] (models provider)).

Definition delete_model (model_name : string) : M unit :=
  config ← load_config;
  let providers := default [] (Providers config) in
  let model_found := existsb (has_model model_name) providers in
  if negb model_found then raise (ValueError (ModelNotFound model_name))
  else
    save_config {| Router := Router config;
                   Providers := Some (delete_model_in model_name <$> providers);
                   other_keys := other_keys config |}.

(** What [requests.get(url, ...)] gives: a response, or a
    [requests.RequestException]. [json_body] is what [response.json()]
    returns, [None] when the body is not JSON. *)
Record Response : Type := mkResponse {
  status_code : Z;
  json_body : option json
}.

Inductive http_reply : Type :=
| Replied (response : Response)
| Failed.

(** The state after the first [try] block of [validate_provider_endpoint]. *)
Inductive first_probe : Type :=
| Returned (url : string)
| FellThrough (should_try_without_v1 : bool).

(** [v1_url] and [no_v1_url] of [validate_provider_endpoint], for the
    base URL without its trailing slashes. *)
Definition probe_urls (base_url : string) : string * string :=
  if PyStr.endswith base_url "/v1" || PyStr.contains "/v1/" base_url then
    if PyStr.endswith base_url "/v1" then
      (base_url +:+ "/models", PyStr.drop_last 3 base_url +:+ "/models")
    else
      let v1_index := default 0%nat (PyStr.find "/v1/" base_url) in
      let base_part := PyStr.take v1_index base_url in
      (base_part +:+ "/v1/models", base_part +:+ "/models")
  else
    (base_url +:+ "/v1/models", base_url +:+ "/models").

Section Endpoint.
(** The network: the reply to a GET of a URL, sent with the given
    [Authorization] header or with none. *)
Variable requests_get : string → option string → http_reply.

Definition validate_provider_endpoint (base_url : string) : string :=
  let base_url := PyStr.rstrip_slash base_url in
  let '(v1_url, no_v1_url) := probe_urls base_url in
  let first :=
    match requests_get v1_url None with
    | Replied response =>
        if (200 <=? status_code response) && (status_code response <? 300) then
          if PyStr.endswith base_url "/v1" then Returned base_url
          else Returned (base_url +:+ "/v1")
        else if status_code response =? 404 then FellThrough true
        else if (400 <=? status_code response) && (status_code response <? 500) then
          if PyStr.endswith base_url "/v1" then Returned base_url
          else Returned (base_url +:+ "/v1")
        else FellThrough false
    | Failed => FellThrough true
    end in
  match first with
  | Returned url => url
  | FellThrough false => base_url
  | FellThrough true =>
      match requests_get no_v1_url None with
      | Replied response =>
          if (200 <=? status_code response) && (status_code response <? 300) then
            if PyStr.endswith base_url "/v1" then PyStr.drop_last 3 base_url
            else base_url
          else if (400 <=? status_code response) && (status_code response <? 500) then
            if PyStr.endswith base_url "/v1" then PyStr.drop_last 3 base_url
            else base_url
          else base_url
      | Failed => base_url
      end
  end.
End Endpoint.

End ConfigManager.

(** [for x in l: acc = body x acc], an exception ending the loop. *)
Fixpoint for_each {A S : Type} (l : list A) (body : A → S → M S) (acc : S) : M S :=
  match l with
  | [] => mret acc
  | x :: l' => acc' ← body x acc; for_each l' body acc'
  end.

(** ** cli.py *)
Module cli.
Import ConfigManager.

Definition list_models : M unit :=
  _ ← get_all_models; mret ().

(** [except FileNotFoundError as e: console.print(...); sys.exit(1)] *)
Definition on_file_not_found {A : Type} (e : exn) : option (M A) :=
  match e with
  | FileNotFoundError => Some (raise (SystemExit ErrorFileNotFound))
  | _ => None
  end.

(** [except (ValueError, FileNotFoundError) as e: ...; sys.exit(1)] *)
Definition on_value_or_file_error {A : Type} (e : exn) : option (M A) :=
  match e with
  | ValueError v => Some (raise (SystemExit (ErrorValue v)))
  | FileNotFoundError => Some (raise (SystemExit ErrorFileNotFound))
  | _ => None
  end.

(** [except subprocess.CalledProcessError] and [except FileNotFoundError]
    around [ccr stop]: a warning is printed and the command goes on. *)
Definition on_stop_error {A : Type} (fallback : A) (e : exn) : option (M A) :=
  match e with
  | CalledProcessError => Some (mret fallback)
  | FileNotFoundError => Some (mret fallback)
  | _ => None
  end.

Section ChangeRouter.
(** [subprocess.run(args, check=True, capture_output=True)]: the process
    completes with status 0, or the call raises: [CalledProcessError] for
    another status, [FileNotFoundError] when there is no such command,
    [OSError] for any other error of the system, such as
    [PermissionError]. *)
Variable subprocess_run : list string → outcome unit.

(** The block [if not no_restart: ...] that follows the write. *)
Definition stop_service (no_restart : bool) : M unit :=
  if negb no_restart then
    try_except (λ s, (subprocess_run ["ccr"; "stop"], s)) (on_stop_error ())
  else mret ().

(** [change_router]. [PyStr.split1] is [None] exactly when
    ["," in model_value] is false. *)
Definition change_router (router_type model_value : string) (no_restart : bool) : M unit :=
  let valid_types := ["default"; "background"; "think"; "longContext"; "webSearch"] in
  if negb (bool_decide (router_type ∈ valid_types)) then
    raise (SystemExit (InvalidRouterType router_type))
  else
    try_except
      (final_value ←
         match PyStr.split1 PyStr.comma model_value with
         | Some (part0, part1) =>
             let provider_name := PyStr.strip part0 in
             let model_name := PyStr.strip part1 in
             ok ← validate_provider_model provider_name model_name;
             if negb ok then
               _ ← list_models;
               raise (SystemExit (ModelNotInProvider model_name provider_name))
             else mret (provider_name +:+ "," +:+ model_name)
         | None =>
             let model_name := PyStr.strip model_value in
             matching_providers ← find_providers_for_model model_name;
             match matching_providers with
             | [] =>
                 _ ← list_models;
                 raise (SystemExit (ModelNotInAnyProvider model_name))
             | [provider_name] => mret (provider_name +:+ "," +:+ model_name)
             | _ =>
                 _ ← list_models;
                 raise (SystemExit (ModelInMultipleProviders model_name matching_providers))
             end
         end;
       router_config ← get_router_config;
       _ ← update_router_config (<[router_type := JStr final_value]> router_config);
       stop_service no_restart)
      on_file_not_found.
End ChangeRouter.

(** [confirmed]: [auto_confirm] was given, or the answer at the prompt was
    [y]. *)
Definition delete_router (router_type : string) (confirmed : bool) : M unit :=
  let valid_types := ["background"; "think"; "longContext"; "webSearch"] in
  if negb (bool_decide (router_type ∈ valid_types)) then
    raise (SystemExit (InvalidRouterType router_type))
  else if negb confirmed then mret ()
  else
    try_except
      (router_config ← get_router_config;
       if negb (bool_decide (is_Some (router_config !! router_type))) then mret ()
       else
         let router_config :=
           if bool_decide (router_type = "longContext")
              && bool_decide (is_Some (router_config !! "longContextThreshold"))
           then delete "longContextThreshold" router_config
           else router_config in
         update_router_config (delete router_type router_config))
      on_file_not_found.

(** The test [is_long_context_model] of [delete_model]: [long_context and
    (long_context.endswith(f",{model_name}") or long_context == model_name)].
    A value without [endswith] raises. *)
Definition is_long_context_model (long_context : json) (model_name : string) : outcome bool :=
  if negb (truthy long_context) then Return false
  else match long_context with
       | JStr lc =>
           Return (PyStr.endswith lc ("," +:+ model_name) || String.eqb lc model_name)
       | _ => Raise AttributeError
       end.

Definition delete_model (model_name : string) (confirmed : bool) : M unit :=
  if negb confirmed then mret ()
  else
    try_except
      (router_config ← get_router_config;
       let long_context := default (JStr "") (router_config !! "longContext") in
       let has_threshold := bool_decide (is_Some (router_config !! "longContextThreshold")) in
       match is_long_context_model long_context model_name with
       | Raise e => raise e
       | Return is_lc =>
           _ ← ConfigManager.delete_model model_name;
           if is_lc && has_threshold then
             router_config ← get_router_config;
             update_router_config (delete "longContextThreshold" router_config)
           else mret ()
       end)
      on_value_or_file_error.

Definition set_long_context_threshold (threshold : Z) : M unit :=
  try_except
    (router_config ← get_router_config;
     let long_context := default JNull (router_config !! "longContext") in
     if negb (truthy long_context) then raise (SystemExit LongContextMustBeSet)
     else update_router_config (<["longContextThreshold" := JInt threshold]> router_config))
    on_file_not_found.

(** *** Fetching a catalog *)

(** [k in data] for a string [k]. *)
Definition py_in (k : string) (data : json) : outcome bool :=
  match data with
  | JDict items => Return (bool_decide (is_Some (dict_get k items)))
  | JList items => Return (existsb (is_str k) items)
  | JStr s => Return (PyStr.contains k s)
  | _ => Raise TypeError
  end.

(** [data[k]] for a string [k]. *)
Definition py_subscript (k : string) (data : json) : outcome json :=
  match data with
  | JDict items =>
      match dict_get k items with
      | Some v => Return v
      | None => Raise (KeyError k)
      end
  | _ => Raise TypeError
  end.

(** [for item in data] *)
Definition py_iter (data : json) : outcome (list json) :=
  match data with
  | JList items => Return items
  | JDict items => Return ((λ item, JStr item.1) <$> items)
  | JStr s => Return ((λ c, JStr (String c EmptyString)) <$> list_ascii_of_string s)
  | _ => Raise TypeError
  end.

(** [[item["id"] for item in items if "id" in item]] *)
Fixpoint ids_of (items : list json) : outcome (list json) :=
  match items with
  | [] => Return []
  | item :: rest =>
      match py_in "id" item with
      | Raise e => Raise e
      | Return false => ids_of rest
      | Return true =>
          match py_subscript "id" item with
          | Raise e => Raise e
          | Return v =>
              match ids_of rest with
              | Raise e => Raise e
              | Return vs => Return (v :: vs)
              end
          end
      end
  end.

Inductive warning : Type :=
| UnexpectedFormat (url : string)
| AuthenticationRequired (url : string)
| HttpStatus (code : Z) (url : string)
| FetchFailed (url : string).

(** The branch [response.status_code == 200], once [response.json()] has
    given [data]: what is returned or raised, and whether the warning of
    the fallback is printed. *)
Definition models_of_body (data : json) : outcome json * bool :=
  match py_in "data" data with
  | Raise e => (Raise e, false)
  | Return true =>
      (match py_subscript "data" data with
       | Raise e => Raise e
       | Return d =>
           match py_iter d with
           | Raise e => Raise e
           | Return items =>
               match ids_of items with
               | Raise e => Raise e
               | Return ids => Return (JList ids)
               end
           end
       end, false)
  | Return false =>
      match py_in "models" data with
      | Raise e => (Raise e, false)
      | Return true => (py_subscript "models" data, false)
      | Return false =>
          match data with
          | JList _ => (Return data, false)
          | _ => (Return (JList []), true)
          end
      end
  end.

Section Fetch.
Variable requests_get : string → option string → http_reply.

(** The loop over [urls_to_try]. A body that is not JSON makes
    [response.json()] raise requests' [JSONDecodeError], which is a
    [RequestException]. *)
Fixpoint fetch_loop (headers : option string) (urls_to_try : list string)
    (warnings : list warning) : outcome json * list warning :=
  match urls_to_try with
  | [] => (Return (JList []), warnings)
  | url :: rest =>
      match requests_get url headers with
      | Failed => fetch_loop headers rest (warnings ++ [FetchFailed url])
      | Replied response =>
          if status_code response =? 200 then
            match json_body response with
            | None => fetch_loop headers rest (warnings ++ [FetchFailed url])
            | Some data =>
                let '(result, warned) := models_of_body data in
                (result, if warned then warnings ++ [UnexpectedFormat url] else warnings)
            end
          else if status_code response =? 401 then
            fetch_loop headers rest (warnings ++ [AuthenticationRequired url])
          else if status_code response =? 404 then
            fetch_loop headers rest warnings
          else
            fetch_loop headers rest (warnings ++ [HttpStatus (status_code response) url])
      end
  end.

Definition fetch_models_from_endpoint (base_url : string) (api_key : option string)
    : outcome json * list warning :=
  let base_url :=
    if PyStr.endswith base_url "/" then PyStr.drop_last 1 base_url else base_url in
  let urls_to_try :=
    if PyStr.endswith base_url "/v1" || PyStr.contains "/v1/" base_url then
      if PyStr.endswith base_url "/v1" then
        [base_url +:+ "/models"; PyStr.drop_last 3 base_url +:+ "/models"]
      else
        let v1_index := default 0%nat (PyStr.find "/v1/" base_url) in
        let base_part := PyStr.take v1_index base_url in
        [base_part +:+ "/v1/models"; base_part +:+ "/models"]
    else
      [base_url +:+ "/v1/models"; base_url +:+ "/models"] in
  let headers :=
    match api_key with
    | Some k => if String.eqb k "" then None else Some ("Bearer " +:+ k)
    | None => None
    end in
  fetch_loop headers urls_to_try [].
End Fetch.

(** *** The update *)

Record report : Type := mkReport {
  added_models : list (string * string);
  removed_models : list (string * string);
  retained_models : list (string * string)
}.

(** The model an item of the router section protects: the loop that fills
    [used_models]. [PyStr.rsplit1] is [None] exactly when ["," in value]
    is false. *)
Definition used_model (item : string * json) : option string :=
  let '(router_type, value) := item in
  if String.eqb router_type "longContextThreshold" then None
  else match value with
       | JStr v =>
           match PyStr.rsplit1 PyStr.comma v with
           | Some (_, model) => Some (PyStr.strip model)
           | None => None
           end
       | _ => None
       end.

Definition used_models (router_config : gmap string json) : gset string :=
  list_to_set (omap used_model (map_to_list router_config)).

(** [except ValueError as e: console.print(...)], the loop going on. *)
Definition on_value_error {A : Type} (fallback : A) (e : exn) : option (M A) :=
  match e with
  | ValueError _ => Some (mret fallback)
  | _ => None
  end.

Section Update.
(** What [fetch_models_from_endpoint] yields for a base URL and an API
    key, as the list of strings its annotation declares, or the
    exception it ends with. *)
Variable catalog : string → option string → outcome (list string).

Definition add_loop_body (provider_name model : string) (stats : report) : M report :=
  try_except
    (_ ← add_model_to_provider provider_name model;
     mret {| added_models := added_models stats ++ [(provider_name, model)];
             removed_models := removed_models stats;
             retained_models := retained_models stats |})
    (on_value_error stats).

Definition remove_loop_body (used : gset string) (provider_name model : string)
    (stats : report) : M report :=
  if decide (model ∉ used) then
    try_except
      (_ ← ConfigManager.delete_model model;
       mret {| added_models := added_models stats;
               removed_models := removed_models stats ++ [(provider_name, model)];
               retained_models := retained_models stats |})
      (on_value_error stats)
  else
    mret {| added_models := added_models stats;
            removed_models := removed_models stats;
            retained_models := retained_models stats ++ [(provider_name, model)] |}.

Definition retain (provider_name : string) (ms : gset string) (stats : report) : report :=
  {| added_models := added_models stats;
     removed_models := removed_models stats;
     retained_models := retained_models stats ++ ((λ m, (provider_name, m)) <$> elements ms) |}.

(** The body of [for provider in providers]. Python's sets are finite
    sets of strings, visited in the order of [elements]. *)
Definition process_provider (provider : Provider) (stats : report) : M report :=
  match name provider, api_base_url provider with
  | None, _ => raise (KeyError "name")
  | Some _, None => raise (KeyError "api_base_url")
  | Some provider_name, Some base_url =>
      let current_models : gset string := list_to_set (default [] (models provider)) in
      match catalog base_url (api_key provider) with
      | Raise e => raise e
      | Return fetched =>
          let fetched_models : gset string := list_to_set fetched in
          if decide (fetched_models = ∅) then
            mret (retain provider_name current_models stats)
          else
            let models_to_add := fetched_models ∖ current_models in
            let models_to_remove := current_models ∖ fetched_models in
            let models_to_retain := current_models ∩ fetched_models in
            stats ← for_each (elements models_to_add) (add_loop_body provider_name) stats;
            router_config ← get_router_config;
            let used := used_models router_config in
            stats ← for_each (elements models_to_remove)
                      (remove_loop_body used provider_name) stats;
            mret (retain provider_name models_to_retain stats)
      end
  end.

Definition no_report : report :=
  {| added_models := []; removed_models := []; retained_models := [] |}.

(** [except FileNotFoundError] and [except Exception] of [update_models];
    [SystemExit] is not an [Exception]. *)
Definition on_any_exception {A : Type} (e : exn) : option (M A) :=
  match e with
  | FileNotFoundError => Some (raise (SystemExit ErrorFileNotFound))
  | SystemExit _ => None
  | _ => Some (raise (SystemExit UnexpectedError))
  end.

(** [update_models] returns the three lists whose contents it prints; they
    are empty when there is no provider. The providers it visits are the
    ones read at the start, while each addition and removal reads and
    writes the file. *)
Definition update_models : M report :=
  try_except
    (providers ← get_providers;
     match providers with
     | [] => mret no_report
     | _ => for_each providers process_provider no_report
     end)
    on_any_exception.
End Update.





(** *** The commands that wrap one operation of the store *)

Section AddProvider.
Variable requests_get : string → option string → http_reply.

(** [add_provider]: the record holds [api_key] only when one was given and
    is not empty. In the source an exception of the validation falls back
    to [base_url]; [validate_provider_endpoint] as embedded raises none. *)
Definition add_provider (name_ base_url : string) (api_key_ : option string) : M unit :=
  let validated_base_url := validate_provider_endpoint requests_get base_url in
  let provider :=
    {| name := Some name_;
       api_base_url := Some validated_base_url;
       api_key := match api_key_ with
                  | Some k => if String.eqb k "" then None else Some k
                  | None => None
                  end;
       models := Some [];
       other_fields := [] |} in
  try_except (ConfigManager.add_provider provider) on_value_or_file_error.
End AddProvider.

Definition add_model (provider model_name : string) : M unit :=
  try_except (add_model_to_provider provider model_name) on_value_or_file_error.

Definition delete_provider (provider_name : string) (confirmed : bool) : M unit :=
  if negb confirmed then mret ()
  else try_except (ConfigManager.delete_provider provider_name) on_value_or_file_error.

End cli.

(** ** Vocabulary of the statements *)

Import ConfigManager.

(** The store whose file holds [config], [log] being what was written so
    far. *)
Definition stored (config : Config) (log : list Config) : Store :=
  {| file := Some config; writes := log |}.

Definition with_providers (config : Config) (ps : list Provider) : Config :=
  {| Router := Router config; Providers := Some ps; other_keys := other_keys config |}.

Definition with_router (config : Config) (r : gmap string json) : Config :=
  {| Router := Some r; Providers := Providers config; other_keys := other_keys config |}.

(** The store after [config] has been saved on top of [log]. *)
Definition written (config : Config) (log : list Config) : Store :=
  stored config (log ++ [config]).

(** [l.count(x)] *)
Definition occurrences (x : string) (l : list string) : nat :=
  length (filter (λ y, y = x) l).

(** The first provider of a given name. *)
Definition first_named (provider_name : string) (providers : list Provider) : option (nat * Provider) :=
  list_find (λ p, name p = Some provider_name) providers.

(** The providers and the router section of the stored document, empty when
    missing. *)
Definition providers_of (s : Store) : list Provider :=
  default [] (file s ≫= Providers).

(** The document of the test fixtures. *)
Definition sample_provider1 : Provider :=
  {| name := Some "provider1"; api_base_url := Some "http://example.com";
     api_key := Some "key1"; models := Some ["model1"; "model2"]; other_fields := [] |}.

Definition sample_provider2 : Provider :=
  {| name := Some "provider2"; api_base_url := Some "http://example2.com";
     api_key := Some "key2"; models := Some ["model2"; "model3"]; other_fields := [] |}.

Definition sample_config : Config :=
  {| Router := Some {[ "default" := JStr "provider1,model1";
                       "background" := JStr "provider2,model2" ]};
     Providers := Some [sample_provider1; sample_provider2];
     other_keys := [] |}.

Definition same_url_provider : Provider :=
  {| name := Some "different_provider"; api_base_url := Some "http://example.com";
     api_key := None; models := Some []; other_fields := [] |}.

(** An operation that raises has written nothing and left the file as it
    was. *)
Definition fails_before_writing {A : Type} (op : M A) : Prop :=
  ∀ s e s', op s = (Raise e, s') → s' = s.

(** An operation that returns has written one document, which is the file
    from then on. *)
Definition writes_once (op : M unit) : Prop :=
  ∀ s s', op s = (Return (), s') →
    ∃ config, s' = {| file := Some config; writes := writes s ++ [config] |}.

Definition router_of (s : Store) : gmap string json :=
  default ∅ (file s ≫= Router).

Definition long_context_config : Config :=
  {| Router := Some {[ "default" := JStr "provider1,model1";
                       "longContext" := JStr "provider1,model1" ]};
     Providers := Some [sample_provider1; sample_provider2];
     other_keys := [] |}.

Definition threshold_config : Config :=
  {| Router := Some {[ "default" := JStr "provider1,model1";
                       "longContext" := JStr "provider1,model1";
                       "longContextThreshold" := JInt 1000 ]};
     Providers := Some [sample_provider1; sample_provider2];
     other_keys := [] |}.

(** What [is_long_context_model] computes for a string assignment: it is
    not empty, and it ends with a comma and the model name or is the model
    name. *)
Definition names_long_context_model (router : gmap string json) (model_name : string) : Prop :=
  ∃ assignment, router !! "longContext" = Some (JStr assignment)
    ∧ assignment ≠ ""
    ∧ (PyStr.endswith assignment ("," +:+ model_name) = true ∨ assignment = model_name).

(** The reading of the specification, to compare with [cli.used_model] and
    [cli.is_long_context_model]: the model an assignment names is the part
    after its last comma, or the whole assignment when it has no comma. *)
Definition spec_assigned_model (assignment : string) : string :=
  match PyStr.rsplit1 PyStr.comma assignment with
  | Some (_, suffix) => suffix
  | None => assignment
  end.

(** The reading of the specification, to compare with
    [names_long_context_model]: the model the assignment names is the model
    name. *)
Definition spec_referenced (assignment model_name : string) : Prop :=
  spec_assigned_model assignment = model_name.

Definition comma_provider : Provider :=
  {| name := Some "p1"; api_base_url := Some "http://example.com";
     api_key := None; models := Some ["a,b"; "m2"]; other_fields := [] |}.

Definition comma_config : Config :=
  {| Router := Some {[ "longContext" := JStr "p1,a,b";
                       "longContextThreshold" := JInt 1000 ]};
     Providers := Some [comma_provider];
     other_keys := [] |}.

(** A probe that counts as failed: a network-level error or HTTP 404. *)
Definition probe_failed (reply : http_reply) : Prop :=
  reply = Failed ∨ ∃ response, reply = Replied response ∧ status_code response = 404.

(** The reading of the specification, to compare with [PyStr.rstrip_slash]:
    one trailing slash is stripped. *)
Definition spec_strip_one_slash (url : string) : string :=
  if PyStr.endswith url "/" then PyStr.drop_last 1 url else url.

Definition no_network : string → option string → http_reply := λ _ _, Failed.

Definition always_status (code : Z) : string → option string → http_reply :=
  λ _ _, Replied {| status_code := code; json_body := None |}.

Definition always_body (data : json) : string → option string → http_reply :=
  λ _ _, Replied {| status_code := 200; json_body := Some data |}.

(** The document with an empty section put in for each missing one. *)
Definition with_sections (config : Config) : Config :=
  {| Router := Some (default ∅ (Router config));
     Providers := Some (default [] (Providers config));
     other_keys := other_keys config |}.

(** Two stores whose documents differ at most in that one spells out an
    empty section the other lacks. *)
Definition same_documents (s1 s2 : Store) : Prop :=
  with_sections <$> file s1 = with_sections <$> file s2.

(** An operation that does not tell a missing section from an empty one:
    it returns or raises the same, and leaves such stores behind again. *)
Definition ignores_missing_sections {A : Type} (op : M A) : Prop :=
  ∀ s1 s2, same_documents s1 s2 →
    (op s1).1 = (op s2).1 ∧ same_documents (op s1).2 (op s2).2.

Definition empty_config : Config :=
  {| Router := None; Providers := None; other_keys := [] |}.

(** [op] keeps the invariant [I] of the store, however it ends, and what it
    returns satisfies [R]. *)
Definition maintains {A : Type} (I : Store → Prop) (R : A → Prop) (op : M A) : Prop :=
  ∀ s, I s → I (op s).2 ∧ ∀ a, (op s).1 = Return a → R a.

(** A provider and what became of it: same name, and the model [m] still
    listed if it was. *)
Definition keeps_model (m : string) (before after : Provider) : Prop :=
  name after = name before
  ∧ (m ∈ default [] (models before) → m ∈ default [] (models after)).

(** The store [s], reached from [s0]: the router section is as it was and
    each provider kept [m]. *)
Definition protects (m : string) (s0 s : Store) : Prop :=
  router_of s = router_of s0
  ∧ Forall2 (keeps_model m) (providers_of s0) (providers_of s).

(** A property of the report that survives what the loops of
    [update_models] do to it: an addition, more retained entries, and the
    removal of a model outside [used]. *)
Definition stable (used : gset string) (P : cli.report → Prop) : Prop :=
  ∀ stats, P stats →
    (∀ entry, P {| cli.added_models := cli.added_models stats ++ [entry];
                   cli.removed_models := cli.removed_models stats;
                   cli.retained_models := cli.retained_models stats |})
    ∧ (∀ entries, P {| cli.added_models := cli.added_models stats;
                       cli.removed_models := cli.removed_models stats;
                       cli.retained_models := cli.retained_models stats ++ entries |})
    ∧ (∀ provider_name model, model ∉ used →
         P {| cli.added_models := cli.added_models stats;
              cli.removed_models := cli.removed_models stats ++ [(provider_name, model)];
              cli.retained_models := cli.retained_models stats |}).

Definition never_removed (m : string) (stats : cli.report) : Prop :=
  ∀ provider_name, (provider_name, m) ∉ cli.removed_models stats.

Definition retained (provider_name m : string) (stats : cli.report) : Prop :=
  (provider_name, m) ∈ cli.retained_models stats.

(** The protected set as the specification words it: the models named by
    the assignments of the five router types. *)
Definition spec_protected (router : gmap string json) : gset string :=
  list_to_set
    (omap (λ router_type,
             match router !! router_type with
             | Some (JStr assignment) => Some (spec_assigned_model assignment)
             | _ => None
             end)
          ["default"; "background"; "think"; "longContext"; "webSearch"]).

Definition bare_provider : Provider :=
  {| name := Some "p1"; api_base_url := Some "http://example.com";
     api_key := None; models := Some ["m1"; "m2"]; other_fields := [] |}.

(** The assignment of [longContext] is a bare model name. *)
Definition bare_config : Config :=
  {| Router := Some {[ "longContext" := JStr "m1" ]};
     Providers := Some [bare_provider];
     other_keys := [] |}.

Definition assigned_config : Config :=
  {| Router := Some {[ "longContext" := JStr "p1,m1" ]};
     Providers := Some [bare_provider];
     other_keys := [] |}.

(** Every endpoint lists [m2] alone. *)
Definition only_m2 : string → option string → outcome (list string) :=
  λ _ _, Return ["m2"].

(** The invariants of the provider list: names are pairwise distinct, base
    URLs are pairwise distinct, and no provider lists a model twice. *)
Definition well_formed (providers : list Provider) : Prop :=
  NoDup (name <$> providers)
  ∧ NoDup (api_base_url <$> providers)
  ∧ Forall (λ p, NoDup (default [] (models p))) providers.

(** What [update_models] leaves alone, between the store [s0] and a later
    store [s]: the router section, the other top-level keys, and of every
    provider all but its list of models. *)
Definition same_frame (s0 s : Store) : Prop :=
  router_of s = router_of s0
  ∧ (other_keys <$> file s) = (other_keys <$> file s0)
  ∧ Forall2 (λ p p', name p' = name p ∧ api_base_url p' = api_base_url p
                     ∧ api_key p' = api_key p ∧ other_fields p' = other_fields p)
            (providers_of s0) (providers_of s).

(** The store without a file. *)
Definition no_file (log : list Config) : Store := {| file := None; writes := log |}.

(** The last provider of a given name: the one whose models
    [get_all_models] keeps under that name. *)
Definition last_named (provider_name : string) (providers : list Provider) : option Provider :=
  last (filter (λ p, name p = Some provider_name) providers).

(** The providers that list a model, in their order. *)
Definition listing (model_name : string) (providers : list Provider) : list Provider :=
  filter (λ p, model_name ∈ default [] (models p)) providers.











(** [ccr stop] completes. *)
Definition ccr_stops : list string → outcome unit := λ _, Return ().


(** ** Proof support *)

Ltac run :=
  unfold add_provider, legacy_add_provider, _check_duplicate_provider, add_model_to_provider,
    delete_provider, delete_model, update_router_config, get_router_config,
    get_providers, get_all_models, find_providers_for_model, validate_provider_model,
    load_config, save_config, raise, try_except, mbind, M_bind, mret, M_ret,
    stored, written, with_providers, with_router in *;
  simpl in *.

(** ** Adding providers and models (C6, C8) *)

Lemma check_duplicate_loop_Some new_name new_base_url providers :
  Exists (λ p, name p = new_name ∨ api_base_url p = new_base_url) providers →
  ∃ e, check_duplicate_loop new_name new_base_url providers = Some e
       ∧ (e = DuplicateName new_name ∨ e = DuplicateBaseUrl new_base_url).
Proof.
  induction 1 as [p l H|p l H IH]; simpl.
  - destruct (decide (name p = new_name)); [eauto|].
    destruct (decide (api_base_url p = new_base_url)); [eauto|].
    destruct H; contradiction.
  - destruct (decide (name p = new_name)); [eauto|].
    destruct (decide (api_base_url p = new_base_url)); eauto.
Qed.

Lemma check_duplicate_loop_None new_name new_base_url providers :
  check_duplicate_loop new_name new_base_url providers = None ↔
  Forall (λ p, name p ≠ new_name ∧ api_base_url p ≠ new_base_url) providers.
Proof.
  induction providers as [|p l IH]; simpl.
  - split; auto.
  - destruct (decide (name p = new_name)).
    { split; [discriminate|]. rewrite Forall_cons. tauto. }
    destruct (decide (api_base_url p = new_base_url)).
    { split; [discriminate|]. rewrite Forall_cons. tauto. }
    rewrite IH, Forall_cons. tauto.
Qed.

Lemma add_provider_rejects config log new :
  Exists (λ p, name p = name new ∨ api_base_url p = api_base_url new)
         (default [] (Providers config)) →
  ∃ e, add_provider new (stored config log) = (Raise (ValueError e), stored config log)
       ∧ (e = DuplicateName (name new) ∨ e = DuplicateBaseUrl (api_base_url new)).
Proof.
  intros H. apply check_duplicate_loop_Some in H as (e & He & Hk).
  exists e. split; [|done]. run. by rewrite He.
Qed.

Lemma add_provider_appends config log new s' :
  add_provider new (stored config log) = (Return (), s') →
  s' = written (with_providers config (default [] (Providers config) ++ [new])) log.
Proof.
  run. destruct (check_duplicate_loop _ _ _); simpl; intros [= <-]; done.
Qed.

Lemma add_provider_accepts config log new :
  Forall (λ p, name p ≠ name new ∧ api_base_url p ≠ api_base_url new)
         (default [] (Providers config)) →
  add_provider new (stored config log)
  = (Return (), written (with_providers config (default [] (Providers config) ++ [new])) log).
Proof.
  intros H. apply check_duplicate_loop_None in H. run. by rewrite H.
Qed.

Lemma occurrences_app x l1 l2 : occurrences x (l1 ++ l2) = (occurrences x l1 + occurrences x l2)%nat.
Proof. unfold occurrences. by rewrite filter_app, length_app. Qed.

Lemma occurrences_absent x l : x ∉ l → occurrences x l = 0%nat.
Proof.
  unfold occurrences. induction l as [|y l IH]; [done|].
  rewrite not_elem_of_cons. intros [? ?].
  rewrite filter_cons_False by congruence. auto.
Qed.

Lemma occurrences_present x l : x ∈ l → (1 ≤ occurrences x l)%nat.
Proof.
  unfold occurrences. induction 1.
  - rewrite filter_cons_True by done. simpl. lia.
  - destruct (decide (y = x)).
    + rewrite filter_cons_True by done. simpl. lia.
    + rewrite filter_cons_False by done. done.
Qed.

Lemma add_model_loop_NoSuchProvider pn mn providers :
  add_model_loop pn mn providers = NoSuchProvider ↔ first_named pn providers = None.
Proof.
  unfold first_named. induction providers as [|p l IH]; simpl; [done|].
  destruct (decide (name p = Some pn)).
  - destruct (decide (mn ∈ default [] (models p))); split; discriminate.
  - destruct (list_find _ l) as [[j q]|]; simpl.
    + split; [|discriminate]. destruct (add_model_loop pn mn l); try discriminate.
      intros _. by destruct IH as [IH _]; specialize (IH eq_refl).
    + destruct IH as [_ IH]. by rewrite IH.
Qed.

Lemma add_model_loop_found pn mn providers i p :
  first_named pn providers = Some (i, p) →
  if decide (mn ∈ default [] (models p)) then add_model_loop pn mn providers = AlreadyPresent
  else add_model_loop pn mn providers
       = Appended (<[i := with_models p (default [] (models p) ++ [mn])]> providers).
Proof.
  unfold first_named. revert i. induction providers as [|q l IH]; simpl; [done|]. intros i.
  destruct (decide (name q = Some pn)).
  - intros [= <- <-]. by destruct (decide _).
  - destruct (list_find _ l) as [[j p']|] eqn:Hf; simpl; [|done].
    intros [= <- <-]. specialize (IH _ eq_refl).
    destruct (decide _); by rewrite IH.
Qed.

Lemma first_named_insert pn providers i p p' :
  first_named pn providers = Some (i, p) → name p' = Some pn →
  first_named pn (<[i := p']> providers) = Some (i, p').
Proof.
  unfold first_named. revert i. induction providers as [|q l IH]; simpl; [done|]. intros i.
  destruct (decide (name q = Some pn)).
  - intros [= <- <-] Hn. simpl. by rewrite decide_True.
  - destruct (list_find _ l) as [[j p'']|] eqn:Hf; simpl; [|done].
    intros [= <- <-] Hn. simpl. rewrite decide_False by done.
    by rewrite (IH _ eq_refl Hn).
Qed.

(** C6. For every document and every new provider record: when some
    existing provider has the same [name] or the same [api_base_url],
    [add_provider] raises the [ValueError] of a duplicate (name or base URL)
    and the store is as before; when none has, it returns, and whenever it
    returns the document written is the old one with the new record appended
    at the end of ["Providers"], the existing records unchanged and in
    their order. *)
Theorem add_provider_duplicate_or_appended
    (config : Config) (log : list Config) (new : Provider) :
  let providers := default [] (Providers config) in
  let s := stored config log in
  (Exists (λ p, name p = name new ∨ api_base_url p = api_base_url new) providers →
   ∃ e, add_provider new s = (Raise (ValueError e), s)
        ∧ (e = DuplicateName (name new) ∨ e = DuplicateBaseUrl (api_base_url new)))
  ∧ (Forall (λ p, name p ≠ name new ∧ api_base_url p ≠ api_base_url new) providers →
     add_provider new s
     = (Return (), written (with_providers config (providers ++ [new])) log))
  ∧ (∀ s', add_provider new s = (Return (), s') →
           s' = written (with_providers config (providers ++ [new])) log).
Proof.
  intros providers s. split; [|split].
  - apply add_provider_rejects.
  - apply add_provider_accepts.
  - apply add_provider_appends.
Qed.

(** A record whose base URL is the one of [provider1] is rejected. *)
Lemma add_provider_duplicate_or_appended_witness :
  ∃ e, add_provider same_url_provider (stored sample_config [])
       = (Raise (ValueError e), stored sample_config [])
       ∧ (e = DuplicateName (Some "different_provider")
          ∨ e = DuplicateBaseUrl (Some "http://example.com")).
Proof.
  apply (proj1 (add_provider_duplicate_or_appended sample_config [] same_url_provider)).
  apply Exists_cons_hd. right. reflexivity.
Defined.

(** C8. [add_model_to_provider] raises "provider not found" when no
    provider has the given name. Otherwise, for the first provider of that
    name, whose list holds the model at most once: adding the model twice in
    succession returns both times, the second call leaves the store as the
    first left it, and that provider's list then holds the model exactly
    once. *)
Theorem add_model_to_provider_idempotent (config : Config) (log : list Config)
    (provider_name model_name : string) :
  let providers := default [] (Providers config) in
  let s := stored config log in
  (first_named provider_name providers = None →
   add_model_to_provider provider_name model_name s
   = (Raise (ValueError (ProviderNotFound provider_name)), s))
  ∧ (∀ i p, first_named provider_name providers = Some (i, p) →
            (occurrences model_name (default [] (models p)) ≤ 1)%nat →
     ∃ s1 p1,
       add_model_to_provider provider_name model_name s = (Return (), s1)
       ∧ add_model_to_provider provider_name model_name s1 = (Return (), s1)
       ∧ first_named provider_name (providers_of s1) = Some (i, p1)
       ∧ occurrences model_name (default [] (models p1)) = 1%nat).
Proof.
  intros providers s. split.
  - intros H. apply add_model_loop_NoSuchProvider with (mn := model_name) in H.
    subst s providers. run. by rewrite H.
  - intros i p Hf Hocc.
    pose proof (add_model_loop_found provider_name model_name _ _ _ Hf) as Hl.
    destruct (decide (model_name ∈ default [] (models p))) as [Hin|Hin].
    + exists s, p. subst s providers. run. rewrite Hl. repeat split; try done.
      apply occurrences_present in Hin. lia.
    + set (p1 := with_models p (default [] (models p) ++ [model_name])) in *.
      assert (Hf1 : first_named provider_name (<[i := p1]> providers) = Some (i, p1)).
      { apply first_named_insert with (p := p); [done|].
        apply list_find_Some in Hf as (_ & Hn & _). exact Hn. }
      pose proof (add_model_loop_found provider_name model_name _ _ _ Hf1) as Hl1.
      rewrite decide_True in Hl1 by (simpl; set_solver).
      exists (written (with_providers config (<[i := p1]> providers)) log), p1.
      subst s providers. run. rewrite Hl. simpl. rewrite Hl1. repeat split; try done.
      unfold providers_of. simpl.
      rewrite occurrences_app, (occurrences_absent _ _ Hin).
      unfold occurrences. by rewrite filter_cons_True.
Qed.

(** [model3] is added twice to [provider1], which does not list it. *)
Lemma add_model_to_provider_idempotent_witness :
  ∃ s1 p1,
    add_model_to_provider "provider1" "model3" (stored sample_config []) = (Return (), s1)
    ∧ add_model_to_provider "provider1" "model3" s1 = (Return (), s1)
    ∧ first_named "provider1" (providers_of s1) = Some (0%nat, p1)
    ∧ occurrences "model3" (default [] (models p1)) = 1%nat.
Proof.
  apply (proj2 (add_model_to_provider_idempotent sample_config [] "provider1" "model3")
           0%nat sample_provider1).
  - reflexivity.
  - vm_compute. lia.
Defined.

(** The older copy of the module accepts the record that
    [add_provider] rejects. *)
Lemma legacy_add_provider_accepts_duplicate :
  legacy_add_provider same_url_provider (stored sample_config [])
  = (Return (),
     written (with_providers sample_config
                [sample_provider1; sample_provider2; same_url_provider]) []).
Proof. reflexivity. Qed.

(** ** Failing before any write (C5) *)

Lemma add_provider_atomic provider :
  fails_before_writing (add_provider provider) ∧ writes_once (add_provider provider).
Proof.
  split; intros [[c|] w]; run;
    try destruct (check_duplicate_loop _ _ _); simpl; intros; simplify_eq; eauto.
Qed.

Lemma delete_provider_atomic provider_name :
  fails_before_writing (delete_provider provider_name)
  ∧ writes_once (delete_provider provider_name).
Proof.
  split; intros [[c|] w]; run;
    try destruct (decide _); simpl; intros; simplify_eq; eauto.
Qed.

Lemma delete_model_atomic model_name :
  fails_before_writing (delete_model model_name) ∧ writes_once (delete_model model_name).
Proof.
  split; intros [[c|] w]; run;
    try destruct (existsb _ _); simpl; intros; simplify_eq; eauto.
Qed.

Lemma update_router_config_atomic router_config :
  fails_before_writing (update_router_config router_config)
  ∧ writes_once (update_router_config router_config).
Proof.
  split; intros [[c|] w]; run; intros; simplify_eq; eauto.
Qed.

Lemma add_model_to_provider_fails_before_writing provider_name model_name :
  fails_before_writing (add_model_to_provider provider_name model_name).
Proof.
  intros [[c|] w]; run;
    try destruct (add_model_loop _ _ _); simpl; intros; simplify_eq; eauto.
Qed.

Lemma add_model_to_provider_writes provider_name model_name s s' :
  add_model_to_provider provider_name model_name s = (Return (), s') →
  ∃ i p, first_named provider_name (providers_of s) = Some (i, p)
    ∧ if decide (model_name ∈ default [] (models p)) then s' = s
      else ∃ config, s' = {| file := Some config; writes := writes s ++ [config] |}.
Proof.
  unfold providers_of. run. destruct (file s) as [c|]; simpl; [|done].
  destruct (first_named provider_name (default [] (Providers c))) as [[i p]|] eqn:Hf.
  - pose proof (add_model_loop_found provider_name model_name _ _ _ Hf) as Hl.
    exists i, p. split; [done|].
    destruct (decide _); rewrite Hl in *; simpl in *; simplify_eq; eauto.
  - apply add_model_loop_NoSuchProvider with (mn := model_name) in Hf.
    rewrite Hf. done.
Qed.

(** C5, as amended. Each mutating operation of the store that raises has
    written nothing and left the file as it was. When [add_provider],
    [delete_provider], [delete_model] or [update_router_config] returns, one
    document has been written and is the file. When [add_model_to_provider]
    returns, either the model was already listed by the first provider of
    that name and nothing was written, or it was not and one document has
    been written. *)
Theorem mutations_fail_before_writing_and_write_once :
  (∀ provider, fails_before_writing (add_provider provider)
               ∧ writes_once (add_provider provider))
  ∧ (∀ provider_name, fails_before_writing (delete_provider provider_name)
                      ∧ writes_once (delete_provider provider_name))
  ∧ (∀ model_name, fails_before_writing (delete_model model_name)
                   ∧ writes_once (delete_model model_name))
  ∧ (∀ router_config, fails_before_writing (update_router_config router_config)
                      ∧ writes_once (update_router_config router_config))
  ∧ (∀ provider_name model_name,
       fails_before_writing (add_model_to_provider provider_name model_name)
       ∧ ∀ s s', add_model_to_provider provider_name model_name s = (Return (), s') →
           ∃ i p, first_named provider_name (providers_of s) = Some (i, p)
             ∧ if decide (model_name ∈ default [] (models p)) then s' = s
               else ∃ config,
                 s' = {| file := Some config; writes := writes s ++ [config] |}).
Proof.
  repeat split;
    try apply add_provider_atomic; try apply delete_provider_atomic;
    try apply delete_model_atomic; try apply update_router_config_atomic;
    try apply add_model_to_provider_fails_before_writing.
  apply add_model_to_provider_writes.
Qed.

(** C5 as stated fails: adding [model1] to [provider1], which lists it,
    returns without a write. *)
Lemma add_existing_model_writes_nothing :
  ¬ writes_once (add_model_to_provider "provider1" "model1").
Proof.
  intros H. destruct (H (stored sample_config []) (stored sample_config []) eq_refl)
    as [config Hc].
  discriminate Hc.
Qed.

(** ** The long-context threshold (C9, C2, C4) *)

Ltac run_cli :=
  unfold cli.change_router, cli.delete_router, cli.delete_model, cli.set_long_context_threshold,
    cli.list_models, cli.on_file_not_found, cli.on_value_or_file_error, router_of, providers_of in *;
  run.

Lemma get_all_models_reads config log :
  ∃ r, get_all_models (stored config log) = (r, stored config log).
Proof. run. destruct (get_all_models_loop _ _); simpl; eauto. Qed.

Lemma set_long_context_threshold_unset config log threshold :
  default ∅ (Router config) !! "longContext" = None →
  cli.set_long_context_threshold threshold (stored config log)
  = (Raise (SystemExit LongContextMustBeSet), stored config log).
Proof. intros H. run_cli. by rewrite H. Qed.

Lemma set_long_context_threshold_set config log threshold assignment :
  default ∅ (Router config) !! "longContext" = Some (JStr assignment) →
  assignment ≠ "" →
  cli.set_long_context_threshold threshold (stored config log)
  = (Return (),
     written (with_router config
                (<["longContextThreshold" := JInt threshold]> (default ∅ (Router config)))) log).
Proof.
  intros H Ha. run_cli. rewrite H. simpl.
  destruct (String.eqb_spec assignment ""); [done|]. done.
Qed.

(** C9. When the router section has no [longContext], setting the
    threshold prints that the longContext model must be set first and exits
    with status 1, the store unchanged. When [longContext] holds a non-empty
    assignment string, it returns, the document written maps
    [longContextThreshold] to the given integer in the router section, and
    reading the router section back gives that value. *)
Theorem set_long_context_threshold_requires_long_context
    (config : Config) (log : list Config) (threshold : Z) :
  let router := default ∅ (Router config) in
  let s := stored config log in
  (router !! "longContext" = None →
   cli.set_long_context_threshold threshold s
   = (Raise (SystemExit LongContextMustBeSet), s))
  ∧ (∀ assignment, router !! "longContext" = Some (JStr assignment) → assignment ≠ "" →
     ∃ s' r,
       cli.set_long_context_threshold threshold s = (Return (), s')
       ∧ file s' = Some (with_router config (<["longContextThreshold" := JInt threshold]> router))
       ∧ get_router_config s' = (Return r, s')
       ∧ r !! "longContextThreshold" = Some (JInt threshold)).
Proof.
  intros router s. split.
  - apply set_long_context_threshold_unset.
  - intros a H Ha. eexists _, _. split; [by apply set_long_context_threshold_set with (assignment := a)|].
    split; [done|]. split; [reflexivity|]. simpl. apply lookup_insert_eq.
Qed.

(** The threshold 1000 is set once [longContext] is [provider1,model1]. *)
Lemma set_long_context_threshold_requires_long_context_witness :
  ∃ s' r,
    cli.set_long_context_threshold 1000 (stored long_context_config []) = (Return (), s')
    ∧ file s' = Some (with_router long_context_config
                        (<["longContextThreshold" := JInt 1000]>
                           (default ∅ (Router long_context_config))))
    ∧ get_router_config s' = (Return r, s')
    ∧ r !! "longContextThreshold" = Some (JInt 1000).
Proof.
  apply (proj2 (set_long_context_threshold_requires_long_context long_context_config [] 1000)
           "provider1,model1").
  - vm_compute. reflexivity.
  - discriminate.
Defined.

Lemma delete_router_set config log router_type :
  router_type ∈ ["background"; "think"; "longContext"; "webSearch"] →
  is_Some (default ∅ (Router config) !! router_type) →
  cli.delete_router router_type true (stored config log)
  = (Return (),
     written (with_router config
                (delete router_type
                   (if bool_decide (router_type = "longContext")
                       && bool_decide (is_Some (default ∅ (Router config) !! "longContextThreshold"))
                    then delete "longContextThreshold" (default ∅ (Router config))
                    else default ∅ (Router config)))) log).
Proof.
  intros Hv Hs. run_cli.
  rewrite bool_decide_true by done. simpl.
  rewrite bool_decide_true by done. simpl. done.
Qed.

(** How the block that stops the service ends: it leaves the store alone,
    and raises only what [subprocess.run] raised and no handler took. *)
Lemma stop_service_runs subprocess_run no_restart s :
  ∃ o, cli.stop_service subprocess_run no_restart s = (o, s)
    ∧ match (if no_restart then Return () else subprocess_run ["ccr"; "stop"]) with
      | Return _ | Raise CalledProcessError | Raise FileNotFoundError => o = Return ()
      | Raise e => o = Raise e
      end.
Proof.
  unfold cli.stop_service, try_except. destruct no_restart; simpl; [eauto|].
  destruct (subprocess_run _) as [[]|e]; [eauto|]. destruct e; simpl; eauto.
Qed.

Lemma bind_run {A B : Type} (m : M A) (f : A → M B) s :
  (m ≫= f) s
  = match m s with
    | (Return a, s') => f a s'
    | (Raise e, s') => (Raise e, s')
    end.
Proof. reflexivity. Qed.

(** [change_router] is [change_router] with [no_restart], followed by the
    block that stops the service when that returned. *)
Lemma change_router_then_stop subprocess_run router_type model_value no_restart s :
  cli.change_router subprocess_run router_type model_value no_restart s
  = match cli.change_router subprocess_run router_type model_value true s with
    | (Return _, s') => cli.stop_service subprocess_run no_restart s'
    | r => r
    end.
Proof.
  unfold cli.change_router. case_bool_decide as Hvalid; [|done]. cbn [negb].
  unfold try_except. rewrite !bind_run.
  match goal with |- context [match ?m s with _ => _ end] =>
    destruct (m s) as [[final_value|e] s1] end; [|by destruct e].
  rewrite !bind_run.
  destruct (get_router_config s1) as [[router_config|e] s2];
    [|by destruct e].
  rewrite !bind_run.
  destruct (update_router_config _ s2) as [[[]|e] s3];
    [|by destruct e].
  destruct (stop_service_runs subprocess_run no_restart s3) as (o & Hstop & Ho).
  rewrite Hstop. simpl. destruct o as [[]|e]; [done|].
  destruct no_restart; [done|].
  destruct (subprocess_run _) as [[]|e']; [done|]. by destruct e'; simplify_eq.
Qed.

Lemma change_router_returns_without_restart
    subprocess_run router_type model_value no_restart s s' :
  cli.change_router subprocess_run router_type model_value no_restart s = (Return (), s') →
  cli.change_router subprocess_run router_type model_value true s = (Return (), s').
Proof.
  rewrite change_router_then_stop.
  destruct (cli.change_router _ _ _ true s) as [[[]|e] s1]; [|done].
  destruct (stop_service_runs subprocess_run no_restart s1) as (o & -> & _).
  by intros [= -> ->].
Qed.

Lemma change_router_overwrites subprocess_run config log router_type model_value no_restart s' :
  cli.change_router subprocess_run router_type model_value no_restart (stored config log)
  = (Return (), s') →
  router_type ∈ ["default"; "background"; "think"; "longContext"; "webSearch"]
  ∧ ∃ final_value,
    s' = written (with_router config
                    (<[router_type := JStr final_value]> (default ∅ (Router config)))) log.
Proof.
  intros H%change_router_returns_without_restart. revert H.
  unfold cli.change_router, cli.stop_service. case_bool_decide as Hvalid; [simpl|done].
  intros H. split; [done|]. revert H.
  unfold try_except.
  destruct (get_all_models_reads config log) as [r Hr].
  unfold mbind at 1. unfold M_bind at 1.
  match goal with |- context [match ?m (stored config log) with _ => _ end] =>
    assert (Hfinal : ∃ o, m (stored config log) = (o, stored config log)) end.
  { destruct (PyStr.split1 _ _) as [[part0 part1]|].
    - unfold validate_provider_model, cli.list_models, mbind, M_bind, mret, M_ret, raise.
      rewrite Hr. destruct r; simpl; [|eauto].
      case_match; simpl; rewrite ?Hr; simpl; eauto.
    - unfold find_providers_for_model, cli.list_models, mbind, M_bind, mret, M_ret, raise.
      rewrite Hr. destruct r; simpl; [|eauto].
      destruct (fst <$> filter _ _) as [|p1 [|p2 l]]; simpl; rewrite ?Hr; simpl; eauto. }
  destruct Hfinal as [o ->]. destruct o as [final_value|e]; simpl.
  - run_cli. intros [= <-]. eauto.
  - destruct e; simpl; unfold raise; done.
Qed.

Lemma router_type_is_not_threshold router_type :
  router_type ∈ ["default"; "background"; "think"; "longContext"; "webSearch"] →
  router_type ≠ "longContextThreshold".
Proof.
  intros Hv ->.
  repeat (apply elem_of_cons in Hv as [Hv|Hv]; [discriminate|]).
  by apply elem_of_nil in Hv.
Qed.

(** C2, as amended. In a document whose router section holds
    [longContextThreshold]: un-setting a router type that is set removes
    [longContextThreshold] if and only if that type is [longContext];
    overwriting a router assignment, [longContext] included, leaves
    [longContextThreshold] as it was. *)
Theorem long_context_threshold_on_router_changes (config : Config) (log : list Config) :
  let router := default ∅ (Router config) in
  let s := stored config log in
  is_Some (router !! "longContextThreshold") →
  (∀ router_type,
     router_type ∈ ["background"; "think"; "longContext"; "webSearch"] →
     is_Some (router !! router_type) →
     ∃ s', cli.delete_router router_type true s = (Return (), s')
       ∧ router_of s' !! router_type = None
       ∧ (router_of s' !! "longContextThreshold" = None ↔ router_type = "longContext"))
  ∧ (∀ subprocess_run router_type model_value no_restart s',
       cli.change_router subprocess_run router_type model_value no_restart s
       = (Return (), s') →
       is_Some (router_of s' !! router_type)
       ∧ router_of s' !! "longContextThreshold" = router !! "longContextThreshold").
Proof.
  intros router s Hthr. split.
  - intros rt Hv Hs. eexists. split; [by apply delete_router_set|].
    unfold router_of. simpl. split; [apply lookup_delete_eq|].
    assert (rt ≠ "longContextThreshold") as Hne.
    { apply router_type_is_not_threshold. apply elem_of_cons; by right. }
    rewrite lookup_delete_ne by done.
    rewrite (bool_decide_true (is_Some _)) by done. rewrite andb_true_r.
    case_bool_decide as Hrt.
    + rewrite lookup_delete_eq. done.
    + split; [|done]. intros Hn. fold router in Hn. rewrite Hn in Hthr.
      by destruct Hthr.
  - intros run rt v nr s' H. apply change_router_overwrites in H as [Hv [final ->]].
    unfold router_of. simpl. split; [rewrite lookup_insert_eq; eauto|].
    apply lookup_insert_ne. by apply router_type_is_not_threshold.
Qed.

(** Un-setting [longContext] in a document with a threshold of 1000. *)
Lemma long_context_threshold_on_router_changes_witness :
  ∃ s', cli.delete_router "longContext" true (stored threshold_config []) = (Return (), s')
    ∧ router_of s' !! "longContext" = None
    ∧ (router_of s' !! "longContextThreshold" = None ↔ "longContext" = "longContext").
Proof.
  apply (proj1 (long_context_threshold_on_router_changes threshold_config []
                  ltac:(vm_compute; eauto)) "longContext").
  - vm_compute. repeat constructor.
  - vm_compute. eauto.
Defined.

(** C2 as stated fails: [longContext] is overwritten and the threshold
    stays. *)
Lemma change_router_keeps_threshold :
  ∃ s', cli.change_router ccr_stops "longContext" "provider1,model2" false
          (stored threshold_config [])
        = (Return (), s')
    ∧ router_of s' !! "longContext" = Some (JStr "provider1,model2")
    ∧ router_of s' !! "longContextThreshold" = Some (JInt 1000).
Proof. eexists. split; [vm_compute; reflexivity|]. split; vm_compute; reflexivity. Qed.

Lemma is_long_context_model_spec router model_name :
  (∀ v, router !! "longContext" = Some v → ∃ assignment, v = JStr assignment) →
  ∃ b, cli.is_long_context_model (default (JStr "") (router !! "longContext")) model_name
       = Return b
    ∧ (b = true ↔ names_long_context_model router model_name).
Proof.
  intros Hstr. unfold names_long_context_model, cli.is_long_context_model.
  destruct (router !! "longContext") as [v|] eqn:Hv; simpl.
  - destruct (Hstr v eq_refl) as [a ->]. simpl.
    destruct (String.eqb_spec a "") as [->|Hne]; simpl.
    + exists false. split; [done|]. split; [done|]. intros (a & [= <-] & ? & _). done.
    + eexists. split; [done|]. rewrite orb_true_iff. split.
      * intros [H|H%String.eqb_eq]; exists a; eauto.
      * intros (a' & [= <-] & _ & [H|H]); [by left|right; by apply String.eqb_eq].
  - exists false. split; [done|]. split; [done|]. intros (a & ? & _). done.
Qed.

Lemma existsb_has_model model_name providers :
  Exists (λ p, model_name ∈ default [] (models p)) providers →
  existsb (has_model model_name) providers = true.
Proof.
  intros H. apply existsb_exists. apply Exists_exists in H as (p & Hp & Hm).
  exists p. split; [by apply list_elem_of_In|]. unfold has_model. by apply bool_decide_eq_true.
Qed.

(** C4, as amended. In a document whose [longContext], when present, is a
    string, deleting a model that some provider lists returns and removes
    the model from the providers; it removes [longContextThreshold] when
    the threshold was set and the [longContext] assignment is a non-empty
    string that ends with a comma and the model name or is the model name,
    and otherwise leaves the router section of the document untouched. *)
Theorem delete_model_threshold_cascade (config : Config) (log : list Config)
    (model_name : string) :
  let router := default ∅ (Router config) in
  let providers := default [] (Providers config) in
  let s := stored config log in
  let cascades :=
    is_Some (router !! "longContextThreshold") ∧ names_long_context_model router model_name in
  (∀ v, router !! "longContext" = Some v → ∃ assignment, v = JStr assignment) →
  Exists (λ p, model_name ∈ default [] (models p)) providers →
  ∃ s', cli.delete_model model_name true s = (Return (), s')
    ∧ providers_of s' = delete_model_in model_name <$> providers
    ∧ (cascades → router_of s' = delete "longContextThreshold" router)
    ∧ (¬ cascades → file s' ≫= Router = Router config).
Proof.
  intros router providers s cascades Hstr Hex.
  destruct (is_long_context_model_spec router model_name Hstr) as (b & Hb & Hiff).
  apply existsb_has_model in Hex.
  unfold cli.delete_model. simpl. unfold try_except.
  unfold mbind at 1. unfold M_bind at 1. simpl.
  fold router. rewrite Hb.
  unfold mbind at 1. unfold M_bind at 1. unfold delete_model. run.
  fold providers. rewrite Hex. simpl.
  destruct b; simpl.
  - case_bool_decide as Ht; simpl.
    + eexists. split; [done|]. unfold providers_of, router_of. simpl.
      split; [done|]. split; [done|].
      intros Hn. destruct Hn. split; [done|]. by apply Hiff.
    + eexists. split; [done|]. unfold providers_of, router_of. simpl.
      split; [done|]. split; [|done]. intros [? _]. done.
  - eexists. split; [done|]. unfold providers_of, router_of. simpl.
    split; [done|]. split; [|done]. intros [_ H%Hiff]. done.
Qed.

(** [model1] is deleted while [longContext] is [provider1,model1]. *)
Lemma delete_model_threshold_cascade_witness :
  ∃ s', cli.delete_model "model1" true (stored threshold_config []) = (Return (), s')
    ∧ providers_of s'
      = delete_model_in "model1" <$> default [] (Providers threshold_config)
    ∧ (is_Some (default ∅ (Router threshold_config) !! "longContextThreshold")
       ∧ names_long_context_model (default ∅ (Router threshold_config)) "model1" →
       router_of s' = delete "longContextThreshold" (default ∅ (Router threshold_config)))
    ∧ (¬ (is_Some (default ∅ (Router threshold_config) !! "longContextThreshold")
          ∧ names_long_context_model (default ∅ (Router threshold_config)) "model1") →
       file s' ≫= Router = Router threshold_config).
Proof.
  apply (delete_model_threshold_cascade threshold_config [] "model1").
  - intros v. vm_compute. intros [= <-]. eauto.
  - apply Exists_cons_hd. vm_compute. apply list_elem_of_here.
Defined.

(** C4 as stated fails: [longContext] is [p1,a,b] and the model [a,b] is
    deleted. The part after the last comma is [b], not the model name, yet
    the threshold is removed. *)
Lemma delete_model_with_comma_in_its_name :
  ¬ spec_referenced "p1,a,b" "a,b"
  ∧ ∃ s', cli.delete_model "a,b" true (stored comma_config []) = (Return (), s')
      ∧ router_of (stored comma_config []) !! "longContextThreshold" = Some (JInt 1000)
      ∧ router_of s' !! "longContextThreshold" = None.
Proof.
  split; [vm_compute; discriminate|].
  eexists. split; [vm_compute; reflexivity|]. split; vm_compute; reflexivity.
Qed.

(** ** The endpoint probe (C3) *)

Lemma first_probe_failed requests_get raw :
  probe_failed (requests_get (probe_urls (PyStr.rstrip_slash raw)).1 None) →
  validate_provider_endpoint requests_get raw
  = match requests_get (probe_urls (PyStr.rstrip_slash raw)).2 None with
    | Replied response =>
        if (200 <=? status_code response) && (status_code response <? 300)
           || (400 <=? status_code response) && (status_code response <? 500)
        then if PyStr.endswith (PyStr.rstrip_slash raw) "/v1"
             then PyStr.drop_last 3 (PyStr.rstrip_slash raw)
             else PyStr.rstrip_slash raw
        else PyStr.rstrip_slash raw
    | Failed => PyStr.rstrip_slash raw
    end.
Proof.
  unfold validate_provider_endpoint.
  destruct (probe_urls (PyStr.rstrip_slash raw)) as [v1_url no_v1_url]. simpl.
  intros [->|(response & -> & H404)].
  - destruct (requests_get no_v1_url None) as [r|]; [|done].
    by destruct ((200 <=? status_code r) && (status_code r <? 300)),
               ((400 <=? status_code r) && (status_code r <? 500)).
  - rewrite H404. simpl.
    destruct (requests_get no_v1_url None) as [r|]; [|done].
    by destruct ((200 <=? status_code r) && (status_code r <? 300)),
               ((400 <=? status_code r) && (status_code r <? 500)).
Qed.

(** What does hold once the first probe has failed (HTTP 404 or a
    network-level error), the base URL being the raw URL without its
    trailing slashes: the result is the base URL if the second probe fails
    at the network level, and also, whatever the second probe answers, if
    the base URL does not end with [/v1]; when the base URL ends with [/v1]
    and the second probe answers 2xx or a 4xx other than 404, the result is
    the base URL without [/v1]. *)
Lemma validate_provider_endpoint_after_failed_first_probe
    (requests_get : string → option string → http_reply) (raw : string) :
  let base_url := PyStr.rstrip_slash raw in
  let v1_url := (probe_urls base_url).1 in
  let no_v1_url := (probe_urls base_url).2 in
  probe_failed (requests_get v1_url None) →
  (requests_get no_v1_url None = Failed →
   validate_provider_endpoint requests_get raw = base_url)
  ∧ (PyStr.endswith base_url "/v1" = false →
     validate_provider_endpoint requests_get raw = base_url)
  ∧ (∀ response, requests_get no_v1_url None = Replied response →
       PyStr.endswith base_url "/v1" = true →
       200 ≤ status_code response < 300
       ∨ (400 ≤ status_code response < 500 ∧ status_code response ≠ 404) →
       validate_provider_endpoint requests_get raw = PyStr.drop_last 3 base_url).
Proof.
  intros base_url v1_url no_v1_url Hfirst.
  rewrite (first_probe_failed _ _ Hfirst). fold base_url no_v1_url.
  split; [|split].
  - by intros ->.
  - intros ->. destruct (requests_get no_v1_url None); [|done]. by case_match.
  - intros r -> -> Hcode.
    replace ((200 <=? status_code r) && (status_code r <? 300)
             || (400 <=? status_code r) && (status_code r <? 500)) with true; [done|].
    symmetry. apply orb_true_iff. rewrite !andb_true_iff.
    rewrite !Z.leb_le, !Z.ltb_lt. lia.
Qed.

(** No probe gets through, for [http://example.com/]. *)
Lemma validate_provider_endpoint_without_network :
  validate_provider_endpoint no_network "http://example.com/" = "http://example.com".
Proof.
  apply (proj1 (validate_provider_endpoint_after_failed_first_probe
                  no_network "http://example.com/" (or_introl eq_refl))).
  reflexivity.
Defined.

(** Both probes fail for [http://example.com//]: the result has lost two
    slashes, where [fetch_models_from_endpoint] strips one. *)
Lemma validate_provider_endpoint_strips_every_trailing_slash :
  probe_failed (no_network "http://example.com/v1/models" None)
  ∧ probe_failed (no_network "http://example.com/models" None)
  ∧ validate_provider_endpoint no_network "http://example.com//" = "http://example.com"
  ∧ spec_strip_one_slash "http://example.com//" = "http://example.com/".
Proof. repeat split; try (by left); vm_compute; reflexivity. Qed.

(** C3. Both probes answer 404 for [http://example.com/v1]: the second
    [try] block has no case for 404, which falls under its test for 4xx, and
    the result is the URL without [/v1], not the URL as given. *)
Theorem validate_provider_endpoint_404_twice_drops_v1 :
  validate_provider_endpoint (always_status 404) "http://example.com/v1"
  = "http://example.com".
Proof. vm_compute. reflexivity. Qed.

(** ** The body of a catalog (C7) *)

Lemma ids_of_objects elems ids :
  Forall2 (λ elem id, ∃ fields, elem = JDict fields ∧ dict_get "id" fields = Some id)
          elems ids →
  cli.ids_of elems = Return ids.
Proof.
  induction 1 as [|elem id elems ids (fields & -> & Hid) _ IH]; [done|].
  simpl. rewrite Hid. simpl. by rewrite IH.
Qed.

Lemma models_of_body_data_object items elems ids :
  dict_get "data" items = Some (JList elems) →
  Forall2 (λ elem id, ∃ fields, elem = JDict fields ∧ dict_get "id" fields = Some id)
          elems ids →
  cli.models_of_body (JDict items) = (Return (JList ids), false).
Proof.
  intros Hd Hall. unfold cli.models_of_body. simpl. rewrite Hd. simpl.
  by rewrite (ids_of_objects _ _ Hall).
Qed.

Lemma models_of_body_models_object items v :
  dict_get "data" items = None →
  dict_get "models" items = Some v →
  cli.models_of_body (JDict items) = (Return v, false).
Proof.
  intros Hd Hm. unfold cli.models_of_body. simpl. rewrite Hd, Hm. simpl.
  done.
Qed.

Lemma models_of_body_other_object items :
  dict_get "data" items = None →
  dict_get "models" items = None →
  cli.models_of_body (JDict items) = (Return (JList []), true).
Proof.
  intros Hd Hm. unfold cli.models_of_body. simpl. rewrite Hd, Hm. simpl.
  done.
Qed.

Lemma models_of_body_bare_array elems :
  existsb (is_str "data") elems = false →
  existsb (is_str "models") elems = false →
  cli.models_of_body (JList elems) = (Return (JList elems), false).
Proof. intros Hd Hm. unfold cli.models_of_body. simpl. by rewrite Hd, Hm. Qed.

Lemma models_of_body_bare_array_naming_data elems :
  existsb (is_str "data") elems = true →
  cli.models_of_body (JList elems) = (Raise TypeError, false).
Proof. intros Hd. unfold cli.models_of_body. simpl. by rewrite Hd. Qed.

(** C7. The endpoint answers 200 with the bare array [["data", "gpt-4"]]:
    [fetch_models_from_endpoint] raises [TypeError] instead of returning the
    array, because ["data" in data] holds of a list with that element and
    [data["data"]] is then evaluated. *)
Theorem fetch_models_from_endpoint_bare_array_naming_data :
  cli.fetch_models_from_endpoint (always_body (JList [JStr "data"; JStr "gpt-4"]))
    "http://example.com" None
  = (Raise TypeError, []).
Proof. vm_compute. reflexivity. Qed.

(** The same defect on the body [null]. *)
Lemma fetch_models_from_endpoint_null_body :
  cli.fetch_models_from_endpoint (always_body JNull) "http://example.com" None
  = (Raise TypeError, []).
Proof. vm_compute. reflexivity. Qed.

(** ** Missing sections (C10) *)

Section IgnoresMissingSections.
Context {A B : Type}.

Lemma ignores_ret (a : A) : ignores_missing_sections (mret a).
Proof. by intros s1 s2 H. Qed.

Lemma ignores_raise (e : exn) : ignores_missing_sections (raise (A := A) e).
Proof. by intros s1 s2 H. Qed.

Lemma ignores_bind (m : M A) (f : A → M B) :
  ignores_missing_sections m → (∀ a, ignores_missing_sections (f a)) →
  ignores_missing_sections (m ≫= f).
Proof.
  intros Hm Hf s1 s2 H. destruct (Hm s1 s2 H) as [Ho Hs].
  unfold mbind, M_bind.
  destruct (m s1) as [o1 s1'], (m s2) as [o2 s2']. simpl in *. subst o2.
  destruct o1; [by apply Hf|done].
Qed.

Lemma ignores_try_except (body : M A) (handler : exn → option (M A)) :
  ignores_missing_sections body →
  (∀ e h, handler e = Some h → ignores_missing_sections h) →
  ignores_missing_sections (try_except body handler).
Proof.
  intros Hb Hh s1 s2 H. destruct (Hb s1 s2 H) as [Ho Hs].
  unfold try_except.
  destruct (body s1) as [o1 s1'], (body s2) as [o2 s2']. simpl in *. subst o2.
  destruct o1 as [a|e]; [done|].
  destruct (handler e) as [h|] eqn:He; [by apply (Hh e h)|done].
Qed.

End IgnoresMissingSections.

Lemma ignores_for_each {A B : Type} (l : list B) (body : B → A → M A) (acc : A) :
  (∀ x a, ignores_missing_sections (body x a)) →
  ignores_missing_sections (for_each l body acc).
Proof.
  intros Hb. revert acc. induction l as [|x l IH]; intros acc; simpl.
  - apply ignores_ret.
  - apply ignores_bind; [apply Hb|]. intros a. apply IH.
Qed.

Lemma same_documents_inv c1 w1 c2 w2 :
  same_documents (mkStore (Some c1) w1) (mkStore (Some c2) w2) →
  default ∅ (Router c1) = default ∅ (Router c2)
  ∧ default [] (Providers c1) = default [] (Providers c2)
  ∧ other_keys c1 = other_keys c2.
Proof. unfold same_documents, with_sections. simpl. intros [= ? ? ?]. done. Qed.

Ltac by_documents :=
  let H := fresh "H" in
  intros [[?c1|] ?w1] [[?c2|] ?w2] H; try (by inversion H);
  apply same_documents_inv in H as (Hr & Hp & Hk);
  run; unfold same_documents, with_sections; simpl.

Lemma ignores_get_router_config : ignores_missing_sections get_router_config.
Proof. by_documents. by rewrite Hr, Hp, Hk. Qed.

Lemma ignores_get_providers : ignores_missing_sections get_providers.
Proof. by_documents. by rewrite Hr, Hp, Hk. Qed.

Lemma ignores_update_router_config r : ignores_missing_sections (update_router_config r).
Proof. by_documents. by rewrite Hp, Hk. Qed.

Lemma ignores_add_provider p : ignores_missing_sections (add_provider p).
Proof.
  by_documents. rewrite Hp. destruct (check_duplicate_loop _ _ _); simpl;
    by rewrite ?Hr, ?Hp, ?Hk.
Qed.

Lemma ignores_add_model_to_provider pn mn :
  ignores_missing_sections (add_model_to_provider pn mn).
Proof.
  by_documents. rewrite Hp. destruct (add_model_loop _ _ _); simpl;
    by rewrite ?Hr, ?Hp, ?Hk.
Qed.

Lemma ignores_get_all_models : ignores_missing_sections get_all_models.
Proof.
  by_documents. rewrite Hp. destruct (get_all_models_loop _ _); simpl;
    by rewrite ?Hr, ?Hp, ?Hk.
Qed.

Lemma ignores_delete_provider pn : ignores_missing_sections (delete_provider pn).
Proof.
  by_documents. rewrite Hp. destruct (decide _); simpl; by rewrite ?Hr, ?Hp, ?Hk.
Qed.

Lemma ignores_delete_model mn : ignores_missing_sections (delete_model mn).
Proof.
  by_documents. rewrite Hp. destruct (existsb _ _); simpl; by rewrite ?Hr, ?Hp, ?Hk.
Qed.

Lemma ignores_try_except_cases {A : Type} (body : M A) (handler : exn → option (M A)) :
  ignores_missing_sections body →
  (∀ e, match handler e with
        | Some h => ignores_missing_sections h
        | None => True
        end) →
  ignores_missing_sections (try_except body handler).
Proof.
  intros Hb Hh. apply ignores_try_except; [done|].
  intros e h He. specialize (Hh e). by rewrite He in Hh.
Qed.

Ltac ignores_step :=
  first
    [ apply ignores_ret
    | apply ignores_raise
    | apply ignores_get_router_config
    | apply ignores_get_providers
    | apply ignores_update_router_config
    | apply ignores_add_provider
    | apply ignores_add_model_to_provider
    | apply ignores_get_all_models
    | apply ignores_delete_provider
    | apply ignores_delete_model
    | apply ignores_bind; [|intros ?]
    | apply ignores_try_except_cases; [|intros []; simpl; try exact I]
    | apply ignores_for_each; intros ? ?
    | match goal with
      | |- ignores_missing_sections (match ?x with _ => _ end) => destruct x
      | |- ignores_missing_sections (if ?x then _ else _) => destruct x
      | |- ignores_missing_sections (let '(_, _) := ?x in _) => destruct x
      end ].

Ltac ignores := repeat ignores_step.

Lemma ignores_find_providers_for_model mn :
  ignores_missing_sections (find_providers_for_model mn).
Proof. unfold find_providers_for_model. ignores. Qed.

Lemma ignores_validate_provider_model pn mn :
  ignores_missing_sections (validate_provider_model pn mn).
Proof. unfold validate_provider_model. ignores. Qed.

Lemma ignores_change_router subprocess_run rt v no_restart :
  ignores_missing_sections (cli.change_router subprocess_run rt v no_restart).
Proof.
  unfold cli.change_router, cli.stop_service, cli.list_models, find_providers_for_model,
    validate_provider_model, cli.on_file_not_found, cli.on_stop_error.
  ignores; by intros s1 s2 H.
Qed.

Lemma ignores_delete_router rt confirmed :
  ignores_missing_sections (cli.delete_router rt confirmed).
Proof. unfold cli.delete_router, cli.on_file_not_found. ignores. Qed.

Lemma ignores_cli_delete_model mn confirmed :
  ignores_missing_sections (cli.delete_model mn confirmed).
Proof. unfold cli.delete_model, cli.on_value_or_file_error. ignores. Qed.

Lemma ignores_set_long_context_threshold n :
  ignores_missing_sections (cli.set_long_context_threshold n).
Proof. unfold cli.set_long_context_threshold, cli.on_file_not_found. ignores. Qed.

Lemma ignores_update_models catalog :
  ignores_missing_sections (cli.update_models catalog).
Proof.
  unfold cli.update_models, cli.process_provider, cli.add_loop_body,
    cli.remove_loop_body, cli.on_value_error, cli.on_any_exception.
  ignores.
Qed.

(** C10. On a document without ["Router"], reading the router section
    returns the empty mapping; on one without ["Providers"], listing the
    providers returns the empty sequence and [add_provider] returns, writing
    the document with ["Providers"] holding the new record alone. No
    operation of the store or of the command line tells a missing section
    from an empty one. *)
Theorem missing_sections_read_as_empty (config : Config) (log : list Config) :
  let s := stored config log in
  (Router config = None → get_router_config s = (Return ∅, s))
  ∧ (Providers config = None → get_providers s = (Return [], s))
  ∧ (Providers config = None →
     ∀ provider, add_provider provider s
                 = (Return (), written (with_providers config [provider]) log))
  ∧ ignores_missing_sections get_router_config
  ∧ ignores_missing_sections get_providers
  ∧ ignores_missing_sections get_all_models
  ∧ (∀ r, ignores_missing_sections (update_router_config r))
  ∧ (∀ p, ignores_missing_sections (add_provider p))
  ∧ (∀ pn mn, ignores_missing_sections (add_model_to_provider pn mn))
  ∧ (∀ pn, ignores_missing_sections (delete_provider pn))
  ∧ (∀ mn, ignores_missing_sections (delete_model mn))
  ∧ (∀ mn, ignores_missing_sections (find_providers_for_model mn))
  ∧ (∀ pn mn, ignores_missing_sections (validate_provider_model pn mn))
  ∧ (∀ subprocess_run rt v no_restart,
       ignores_missing_sections (cli.change_router subprocess_run rt v no_restart))
  ∧ (∀ rt confirmed, ignores_missing_sections (cli.delete_router rt confirmed))
  ∧ (∀ mn confirmed, ignores_missing_sections (cli.delete_model mn confirmed))
  ∧ (∀ n, ignores_missing_sections (cli.set_long_context_threshold n))
  ∧ (∀ catalog, ignores_missing_sections (cli.update_models catalog)).
Proof.
  intros s. split; [|split; [|split]].
  - intros H. subst s. run. by rewrite H.
  - intros H. subst s. run. by rewrite H.
  - intros H p. subst s. rewrite add_provider_accepts; rewrite H; [done|constructor].
  - repeat match goal with |- _ ∧ _ => split end; intros;
      auto using ignores_get_router_config, ignores_get_providers, ignores_get_all_models,
        ignores_update_router_config, ignores_add_provider, ignores_add_model_to_provider,
        ignores_delete_provider, ignores_delete_model, ignores_find_providers_for_model,
        ignores_validate_provider_model, ignores_change_router, ignores_delete_router,
        ignores_cli_delete_model, ignores_set_long_context_threshold, ignores_update_models.
Qed.

(** The document [{}]. *)
Lemma missing_sections_read_as_empty_witness :
  get_router_config (stored empty_config []) = (Return ∅, stored empty_config [])
  ∧ get_providers (stored empty_config []) = (Return [], stored empty_config [])
  ∧ add_provider sample_provider1 (stored empty_config [])
    = (Return (), written (with_providers empty_config [sample_provider1]) []).
Proof.
  pose proof (missing_sections_read_as_empty empty_config []) as (H1 & H2 & H3 & _).
  split; [exact (H1 eq_refl)|]. split; [exact (H2 eq_refl)|]. exact (H3 eq_refl sample_provider1).
Defined.

(** ** The update and the models in use (C1) *)

Section Maintains.
Context {A B : Type} (I : Store → Prop).

Lemma maintains_ret (R : A → Prop) (a : A) : R a → maintains I R (mret a).
Proof. intros Ha s Hs. split; [done|]. by intros ? [= <-]. Qed.

Lemma maintains_raise (R : A → Prop) (e : exn) : maintains I R (raise e).
Proof. by intros s Hs. Qed.

Lemma maintains_bind (R1 : A → Prop) (R2 : B → Prop) (m : M A) (f : A → M B) :
  maintains I R1 m → (∀ a, R1 a → maintains I R2 (f a)) →
  maintains I R2 (m ≫= f).
Proof.
  intros Hm Hf s Hs. destruct (Hm s Hs) as [Hi Hr].
  unfold mbind, M_bind. destruct (m s) as [[a|e] s']; simpl in *; [|done].
  by apply (Hf a (Hr a eq_refl)).
Qed.

Lemma maintains_try_except (R : A → Prop) (body : M A) (handler : exn → option (M A)) :
  maintains I R body →
  (∀ e, match handler e with Some h => maintains I R h | None => True end) →
  maintains I R (try_except body handler).
Proof.
  intros Hb Hh s Hs. destruct (Hb s Hs) as [Hi Hr].
  unfold try_except. destruct (body s) as [[a|e] s']; simpl in *; [done|].
  specialize (Hh e). destruct (handler e) as [h|]; [by apply Hh|done].
Qed.

Lemma maintains_weaken (R R' : A → Prop) (op : M A) :
  (∀ a, R a → R' a) → maintains I R op → maintains I R' op.
Proof. intros HR H s Hs. destruct (H s Hs). split; auto. Qed.
End Maintains.

Lemma maintains_for_each {A S : Type} (I : Store → Prop) (R : S → Prop)
    (l : list A) (body : A → S → M S) (acc : S) :
  (∀ x a, x ∈ l → R a → maintains I R (body x a)) →
  R acc → maintains I R (for_each l body acc).
Proof.
  revert acc. induction l as [|x l IH]; intros acc Hb Hacc; simpl.
  - by apply maintains_ret.
  - apply maintains_bind with (R1 := R).
    + apply Hb; [apply list_elem_of_here|done].
    + intros a Ha. apply IH; [|done]. intros y b Hy. apply Hb. by apply list_elem_of_further.
Qed.

(** Once the body has met the element [x0], [G] holds of the accumulator,
    and it holds from then on. *)
Lemma maintains_for_each_reaches {A S : Type} (I : Store → Prop) (G : S → Prop)
    (l : list A) (body : A → S → M S) (x0 : A) (acc : S) :
  (∀ x a, maintains I (λ a', (G a → G a') ∧ (x = x0 → G a')) (body x a)) →
  x0 ∈ l → maintains I G (for_each l body acc).
Proof.
  intros Hb Hin.
  assert (Hmono : ∀ l' a, G a → maintains I G (for_each l' body a)).
  { intros l' a Ha. apply maintains_for_each; [|done].
    intros x b _ Hb'. eapply maintains_weaken; [|apply Hb]. simpl. tauto. }
  revert acc. induction l as [|y l IH]; intros acc; [by apply elem_of_nil in Hin|].
  simpl. apply elem_of_cons in Hin as [<-|Hin].
  - apply maintains_bind with (R1 := λ a', (G acc → G a') ∧ (x0 = x0 → G a'));
      [apply Hb|].
    intros a [_ Ha]. apply Hmono. auto.
  - apply maintains_bind with (R1 := λ a', (G acc → G a') ∧ (y = x0 → G a'));
      [apply Hb|].
    intros a _. by apply IH.
Qed.

Lemma keeps_model_refl m p : keeps_model m p p.
Proof. by split. Qed.

Lemma keeps_model_trans m p1 p2 p3 :
  keeps_model m p1 p2 → keeps_model m p2 p3 → keeps_model m p1 p3.
Proof. intros [? ?] [? ?]. split; [congruence|auto]. Qed.

Lemma protects_refl m s : protects m s s.
Proof.
  split; [done|]. apply Forall_Forall2_diag, Forall_forall.
  intros p _. apply keeps_model_refl.
Qed.

Lemma protects_trans m s1 s2 s3 :
  protects m s1 s2 → protects m s2 s3 → protects m s1 s3.
Proof.
  intros [Hr1 Hp1] [Hr2 Hp2]. split; [congruence|].
  revert Hp2. generalize (providers_of s3). induction Hp1 as [|p1 p2 l1 l2 Hk _ IH].
  - by inversion 1.
  - intros l3. inversion 1 as [|? p3 ? l3' Hk' Hl3]; subst.
    constructor; [by eapply keeps_model_trans|by apply IH].
Qed.

(** An operation each of whose runs protects [m] maintains the protection
    that holds since [s0]. *)
Lemma protects_maintained {A : Type} m s0 (op : M A) :
  (∀ s, protects m s (op s).2) → maintains (protects m s0) (λ _, True) op.
Proof. intros H s Hs. split; [|done]. by eapply protects_trans. Qed.

Lemma list_remove_first_other (m x : string) (l : list string) :
  x ≠ m → m ∈ l → m ∈ list_remove_first x l.
Proof.
  intros Hne. induction l as [|y l IH]; [done|]. simpl.
  destruct (decide (y = x)) as [->|Hy].
  - rewrite elem_of_cons. intros [?|?]; [congruence|done].
  - rewrite !elem_of_cons. intros [?|?]; [by left|right; auto].
Qed.

Lemma add_model_to_provider_protects m provider_name model_name s :
  protects m s (add_model_to_provider provider_name model_name s).2.
Proof.
  destruct s as [[c|] w]; run; [|apply protects_refl].
  destruct (first_named provider_name (default [] (Providers c))) as [[i p]|] eqn:Hf.
  - pose proof (add_model_loop_found provider_name model_name _ _ _ Hf) as Hl.
    destruct (decide _); rewrite Hl; simpl; [apply protects_refl|].
    split; [done|]. unfold providers_of. simpl.
    apply list_find_Some in Hf as (Hi & Hn & _).
    rewrite <- (list_insert_id _ _ _ Hi) at 1.
    apply Forall2_insert.
    + apply Forall_Forall2_diag, Forall_forall. intros ? _. apply keeps_model_refl.
    + split; [done|]. simpl. set_solver.
  - apply add_model_loop_NoSuchProvider with (mn := model_name) in Hf.
    rewrite Hf. apply protects_refl.
Qed.

Lemma delete_model_protects m model_name s :
  model_name ≠ m → protects m s (delete_model model_name s).2.
Proof.
  intros Hne. destruct s as [[c|] w]; run; [|apply protects_refl].
  destruct (existsb _ _); simpl; [|apply protects_refl].
  split; [done|]. unfold providers_of. simpl.
  apply Forall2_fmap_r, Forall_Forall2_diag, Forall_forall. intros p _.
  unfold delete_model_in, compose. case_decide; [|apply keeps_model_refl].
  split; [done|]. simpl. by apply list_remove_first_other.
Qed.

Lemma get_router_config_protected m s0 :
  maintains (protects m s0) (λ r, r = router_of s0) get_router_config.
Proof.
  intros [[c|] w] [Hr Hp]; run; split; try done.
  intros r [= <-]. exact Hr.
Qed.

Lemma never_removed_stable m used : m ∈ used → stable used (never_removed m).
Proof.
  intros Hm stats H. repeat split; try done.
  intros pn x Hx pn'. simpl. rewrite not_elem_of_app, not_elem_of_cons. split; [apply H|].
  split; [|apply not_elem_of_nil]. intros [= _ <-]. done.
Qed.

Lemma retained_stable provider_name m used : stable used (retained provider_name m).
Proof.
  intros stats H. repeat split; try done.
  intros entries. unfold retained. simpl. apply elem_of_app. by left.
Qed.

Section UpdateModels.
Variable catalog : string → option string → outcome (list string).
Variable m : string.
Variable s0 : Store.
Hypothesis m_used : m ∈ cli.used_models (router_of s0).

Let used := cli.used_models (router_of s0).
Let inv := protects m s0.

Lemma add_loop_body_stable P provider_name model stats :
  stable used P → P stats →
  maintains inv P (cli.add_loop_body provider_name model stats).
Proof.
  intros HP Hs. unfold cli.add_loop_body. apply maintains_try_except.
  - apply maintains_bind with (R1 := λ _, True).
    + apply protects_maintained, add_model_to_provider_protects.
    + intros _ _. apply maintains_ret. by apply HP.
  - intros []; simpl; try exact I. by apply maintains_ret.
Qed.

Lemma remove_loop_body_stable P provider_name model stats :
  stable used P → P stats →
  maintains inv P (cli.remove_loop_body used provider_name model stats).
Proof.
  intros HP Hs. unfold cli.remove_loop_body. case_decide as Hx.
  - apply maintains_try_except.
    + apply maintains_bind with (R1 := λ _, True).
      * apply protects_maintained. intros s. apply delete_model_protects.
        intros ->. by apply Hx.
      * intros _ _. apply maintains_ret. by apply HP.
    + intros []; simpl; try exact I. by apply maintains_ret.
  - apply maintains_ret. by apply (HP stats Hs).
Qed.

Lemma remove_loop_body_retains provider_name stats :
  maintains inv (retained provider_name m)
    (cli.remove_loop_body used provider_name m stats).
Proof.
  unfold cli.remove_loop_body. rewrite decide_False by (intros H; by apply H).
  apply maintains_ret. unfold retained. simpl. apply elem_of_app. right. apply list_elem_of_here.
Qed.

Lemma retain_stable P provider_name ms stats :
  stable used P → P stats → P (cli.retain provider_name ms stats).
Proof. intros HP Hs. by apply HP. Qed.

Lemma process_provider_stable P provider stats :
  stable used P → P stats →
  maintains inv P (cli.process_provider catalog provider stats).
Proof.
  intros HP Hs. unfold cli.process_provider.
  destruct (name provider) as [provider_name|]; [|apply maintains_raise].
  destruct (api_base_url provider) as [base_url|]; [|apply maintains_raise].
  destruct (catalog base_url (api_key provider)) as [fetched|e]; [|apply maintains_raise].
  case_decide.
  { apply maintains_ret. by apply retain_stable. }
  apply maintains_bind with (R1 := P).
  { apply maintains_for_each; [|done]. intros. by apply add_loop_body_stable. }
  intros stats1 Hs1.
  apply maintains_bind with (R1 := λ r, r = router_of s0).
  { apply get_router_config_protected. }
  intros r ->. fold used.
  apply maintains_bind with (R1 := P).
  { apply maintains_for_each; [|done]. intros. by apply remove_loop_body_stable. }
  intros stats2 Hs2. apply maintains_ret. by apply retain_stable.
Qed.

Lemma process_provider_retains provider provider_name base_url fetched stats :
  name provider = Some provider_name →
  api_base_url provider = Some base_url →
  catalog base_url (api_key provider) = Return fetched →
  fetched ≠ [] →
  m ∈ default [] (models provider) →
  m ∉ fetched →
  maintains inv (retained provider_name m) (cli.process_provider catalog provider stats).
Proof.
  intros Hn Hu Hc Hne Hin Hout. unfold cli.process_provider.
  rewrite Hn, Hu, Hc. rewrite decide_False.
  2:{ destruct fetched as [|x l]; [done|]. set_solver. }
  apply maintains_bind with (R1 := λ _, True).
  { apply maintains_for_each; [|done]. intros.
    by apply add_loop_body_stable with (P := λ _, True). }
  intros stats1 _.
  apply maintains_bind with (R1 := λ r, r = router_of s0).
  { apply get_router_config_protected. }
  intros r ->. fold used.
  apply maintains_bind with (R1 := retained provider_name m).
  { apply maintains_for_each_reaches with (x0 := m).
    - intros x a. destruct (decide (x = m)) as [->|Hx].
      + eapply maintains_weaken; [|apply remove_loop_body_retains]. simpl. tauto.
      + apply maintains_weaken with (R := λ a', retained provider_name m a → retained provider_name m a').
        { simpl. tauto. }
        intros s Hs. split.
        * by apply (remove_loop_body_stable (λ _, True) provider_name x a).
        * intros a' Ha' Hr.
          by apply (remove_loop_body_stable (retained provider_name m) provider_name x a
                      (retained_stable _ _ _) Hr s Hs).
    - apply elem_of_elements. set_solver. }
  intros stats2 Hs2. apply maintains_ret.
  by apply (retain_stable _ _ _ _ (retained_stable _ _ _)).
Qed.
End UpdateModels.

Lemma update_models_run catalog config log :
  let s0 := stored config log in
  let inner :=
    for_each (default [] (Providers config)) (cli.process_provider catalog)
      cli.no_report s0 in
  (cli.update_models catalog s0).2 = inner.2
  ∧ ∀ stats, (cli.update_models catalog s0).1 = Return stats → inner.1 = Return stats.
Proof.
  intros s0 inner. subst s0 inner. unfold cli.update_models. run.
  destruct (default [] (Providers config)) as [|p l]; [done|].
  match goal with |- context [for_each ?l ?b ?a ?s] => destruct (for_each l b a s) as [[stats|e] s'] end;
    [done|].
  destruct e; simpl; done.
Qed.

(** X25. Let [m] be in the set [used_models] of the router
    section: the part after the last comma, without surrounding whitespace,
    of some string value, other than that of [longContextThreshold], that
    holds a comma. Then, however [update_models] ends, every provider still
    lists [m] if it did; and when it returns its report, [m] is nowhere
    reported removed, and it is reported retained for each provider that
    listed it and whose fetched catalog is not empty and lacks it. *)
Theorem update_models_keeps_models_in_use
    (catalog : string → option string → outcome (list string))
    (config : Config) (log : list Config) (m : string) :
  let s0 := stored config log in
  let providers := default [] (Providers config) in
  let result := cli.update_models catalog s0 in
  m ∈ cli.used_models (default ∅ (Router config)) →
  Forall2 (keeps_model m) providers (providers_of result.2)
  ∧ ∀ stats, result.1 = Return stats →
      (∀ provider_name, (provider_name, m) ∉ cli.removed_models stats)
      ∧ (∀ provider provider_name base_url fetched,
           provider ∈ providers →
           name provider = Some provider_name →
           api_base_url provider = Some base_url →
           catalog base_url (api_key provider) = Return fetched →
           fetched ≠ [] →
           m ∈ default [] (models provider) →
           m ∉ fetched →
           (provider_name, m) ∈ cli.retained_models stats).
Proof.
  intros s0 providers result Hm.
  destruct (update_models_run catalog config log) as [Hs Hr].
  fold s0 providers result in Hs, Hr.
  assert (Hm0 : m ∈ cli.used_models (router_of s0)) by done.
  pose proof (maintains_for_each (protects m s0) (never_removed m) providers
                (cli.process_provider catalog) cli.no_report) as Hsafe.
  destruct Hsafe with (s := s0) as [[_ Hkept] Hnever].
  { intros x a _ Ha.
    apply (process_provider_stable catalog m s0 Hm0); [by apply never_removed_stable|done]. }
  { intros ?. apply not_elem_of_nil. }
  { apply protects_refl. }
  split; [by rewrite Hs|].
  intros stats Hstats. apply Hr in Hstats. split; [by apply Hnever|].
  intros p pn url fetched Hp Hn Hu Hc Hne Hin Hout.
  pose proof (maintains_for_each_reaches (protects m s0) (retained pn m) providers
                (cli.process_provider catalog) p cli.no_report) as Hreach.
  destruct (Hreach) with (s := s0) as [_ Hret]; [|done|apply protects_refl|by apply Hret].
  intros x a s Hinv. split.
  - by apply (process_provider_stable catalog m s0 Hm0 (λ _, True) x a).
  - intros a' Ha'. split.
    + intros Hr'.
      by apply (process_provider_stable catalog m s0 Hm0 (retained pn m) x a
                  (retained_stable _ _ _) Hr' s Hinv).
    + intros ->.
      by apply (process_provider_retains catalog m s0 Hm0 p pn url fetched a
                  Hn Hu Hc Hne Hin Hout s Hinv).
Qed.

(** [longContext] is [p1,m1] and the catalog of [p1] is [m2] alone. *)
Lemma update_models_keeps_models_in_use_witness :
  Forall2 (keeps_model "m1") (default [] (Providers assigned_config))
    (providers_of (cli.update_models only_m2 (stored assigned_config [])).2)
  ∧ ∀ stats, (cli.update_models only_m2 (stored assigned_config [])).1 = Return stats →
      (∀ provider_name, (provider_name, "m1") ∉ cli.removed_models stats)
      ∧ (∀ provider provider_name base_url fetched,
           provider ∈ default [] (Providers assigned_config) →
           name provider = Some provider_name →
           api_base_url provider = Some base_url →
           only_m2 base_url (api_key provider) = Return fetched →
           fetched ≠ [] →
           "m1" ∈ default [] (models provider) →
           "m1" ∉ fetched →
           (provider_name, "m1") ∈ cli.retained_models stats).
Proof.
  apply (update_models_keeps_models_in_use only_m2 assigned_config [] "m1").
  unfold cli.used_models. apply elem_of_list_to_set. vm_compute. apply list_elem_of_here.
Defined.

(** The part after the last comma is protected without the whitespace
    around it. *)
Lemma used_models_strips_whitespace :
  elements (cli.used_models {[ "longContext" := JStr "p1, m1 " ]}) = ["m1"].
Proof. vm_compute. reflexivity. Qed.

(** C1. [longContext] is the bare name [m1], a model the router section
    references and the claim protects; the provider [p1] lists [m1] and
    [m2], and its catalog is [m2] alone. [update_models] removes [m1] and
    reports it removed: the loop that fills [used_models] skips a value
    without a comma, while the test of [delete_model] takes the same value
    to name the model. *)
Theorem update_models_removes_bare_assignment :
  "m1" ∈ spec_protected (router_of (stored bare_config []))
  ∧ cli.is_long_context_model (JStr "m1") "m1" = Return true
  ∧ cli.used_models (router_of (stored bare_config [])) = ∅
  ∧ ∃ s', cli.update_models only_m2 (stored bare_config [])
          = (Return {| cli.added_models := [];
                       cli.removed_models := [("p1", "m1")];
                       cli.retained_models := [("p1", "m2")] |}, s')
      ∧ models <$> providers_of s' = [Some ["m2"]].
Proof.
  split; [|split; [|split]].
  - unfold spec_protected. apply elem_of_list_to_set. vm_compute. apply list_elem_of_here.
  - reflexivity.
  - vm_compute. reflexivity.
  - eexists. split; vm_compute; reflexivity.
Qed.

(** ** The test of [delete_model] and the last comma *)

Lemma contains_comma_cons a s :
  PyStr.contains "," (String a s) = Ascii.eqb a PyStr.comma || PyStr.contains "," s.
Proof.
  cbn [PyStr.contains PyStr.startswith]. unfold PyStr.comma.
  rewrite Ascii.eqb_sym. by destruct (Ascii.eqb a ","), s.
Qed.

Lemma rsplit1_no_comma s :
  PyStr.contains "," s = false → PyStr.rsplit1 PyStr.comma s = None.
Proof.
  induction s as [|a s IH]; [done|]. rewrite contains_comma_cons.
  intros [Ha Hs]%orb_false_iff. simpl. by rewrite (IH Hs), Ha.
Qed.

Lemma endswith_comma_rsplit1 assignment model_name :
  PyStr.contains "," model_name = false →
  PyStr.endswith assignment ("," +:+ model_name) = true
  ↔ ∃ h, PyStr.rsplit1 PyStr.comma assignment = Some (h, model_name).
Proof.
  intros Hm. induction assignment as [|a s IH].
  - simpl. split; [done|]. by intros [? ?].
  - cbn [PyStr.endswith PyStr.rsplit1]. rewrite orb_true_iff, IH.
    change ("," +:+ model_name) with (String PyStr.comma model_name).
    rewrite String.eqb_eq. split.
    + intros [[= -> ->]|[h Hh]].
      * rewrite (rsplit1_no_comma _ Hm), Ascii.eqb_refl. eauto.
      * rewrite Hh. eauto.
    + intros [h Hh]. destruct (PyStr.rsplit1 PyStr.comma s) as [[h' t]|].
      * right. injection Hh as _ <-. eauto.
      * left. destruct (Ascii.eqb_spec a PyStr.comma) as [->|]; [|done].
        by injection Hh as _ <-.
Qed.

(** For a model name without a comma and an assignment that is not empty,
    the test of [delete_model] and the reading of the specification agree. *)
Lemma is_long_context_model_agrees_with_spec assignment model_name :
  PyStr.contains "," model_name = false →
  (PyStr.endswith assignment ("," +:+ model_name) = true ∨ assignment = model_name)
  ↔ spec_referenced assignment model_name.
Proof.
  intros Hm. rewrite (endswith_comma_rsplit1 _ _ Hm).
  unfold spec_referenced, spec_assigned_model. split.
  - intros [[h ->]| ->]; [done|]. by rewrite (rsplit1_no_comma _ Hm).
  - destruct (PyStr.rsplit1 PyStr.comma assignment) as [[h t]|]; [|by right].
    intros ->. left. eauto.
Qed.

(** ** More on the store: what the mutations keep *)

Lemma list_remove_first_subseteq x l : list_remove_first x l ⊆ l.
Proof.
  induction l as [|y l IH]; [done|]. simpl. case_decide.
  - intros z Hz. by apply list_elem_of_further.
  - intros z [->|Hz]%elem_of_cons; [apply list_elem_of_here|].
    apply list_elem_of_further. by apply IH.
Qed.

Lemma list_remove_first_NoDup x l : NoDup l → NoDup (list_remove_first x l).
Proof.
  induction 1 as [|y l Hy Hl IH]; [constructor|]. simpl. case_decide; [done|].
  constructor; [|done]. intros Hin. apply Hy. by apply (list_remove_first_subseteq x).
Qed.

Lemma list_remove_first_NoDup_gone x l : NoDup l → x ∉ list_remove_first x l.
Proof.
  induction 1 as [|y l Hy Hl IH]; [apply not_elem_of_nil|]. simpl.
  case_decide as Hyx; [by subst|].
  rewrite not_elem_of_cons. split; [congruence|done].
Qed.

Lemma well_formed_insert providers i p p' :
  providers !! i = Some p →
  name p' = name p → api_base_url p' = api_base_url p →
  NoDup (default [] (models p')) →
  well_formed providers → well_formed (<[i := p']> providers).
Proof.
  intros Hi Hn Hu Hm (Hnames & Hurls & Hmodels). split; [|split].
  - rewrite list_fmap_insert, Hn. by rewrite list_insert_id by (by rewrite list_lookup_fmap, Hi).
  - rewrite list_fmap_insert, Hu. by rewrite list_insert_id by (by rewrite list_lookup_fmap, Hi).
  - by apply Forall_insert.
Qed.

Lemma add_model_to_provider_well_formed provider_name model_name s :
  well_formed (providers_of s) →
  well_formed (providers_of (add_model_to_provider provider_name model_name s).2).
Proof.
  destruct s as [[c|] w]; unfold providers_of; run; [|done].
  intros Hwf.
  destruct (first_named provider_name (default [] (Providers c))) as [[i p]|] eqn:Hf.
  - pose proof (add_model_loop_found provider_name model_name _ _ _ Hf) as Hl.
    case_decide as Hin; rewrite Hl; simpl; [done|].
    apply list_find_Some in Hf as (Hi & _ & _).
    apply well_formed_insert with (p := p); try done. simpl.
    apply NoDup_app. split; [|split].
    + destruct Hwf as (_ & _ & Hm). by apply (Forall_lookup_1 _ _ _ _ Hm Hi).
    + intros x Hx. rewrite list_elem_of_singleton. by intros ->.
    + apply NoDup_singleton.
  - apply add_model_loop_NoSuchProvider with (mn := model_name) in Hf. by rewrite Hf.
Qed.

Lemma delete_model_well_formed model_name s :
  well_formed (providers_of s) →
  well_formed (providers_of (delete_model model_name s).2).
Proof.
  destruct s as [[c|] w]; unfold providers_of; run; [|done].
  intros (Hnames & Hurls & Hmodels). destruct (existsb _ _); simpl; [|done].
  assert (Hsame : ∀ p, name (delete_model_in model_name p) = name p
                       ∧ api_base_url (delete_model_in model_name p) = api_base_url p).
  { intros p. unfold delete_model_in. by case_decide. }
  split; [|split].
  - rewrite <- list_fmap_compose.
    erewrite list_fmap_ext; [exact Hnames|]. intros ? p _. apply Hsame.
  - rewrite <- list_fmap_compose.
    erewrite list_fmap_ext; [exact Hurls|]. intros ? p _. apply Hsame.
  - apply Forall_fmap. eapply Forall_impl; [exact Hmodels|]. intros p Hp. simpl.
    unfold delete_model_in. case_decide; [|done]. simpl. by apply list_remove_first_NoDup.
Qed.

Lemma delete_provider_well_formed provider_name s :
  well_formed (providers_of s) →
  well_formed (providers_of (delete_provider provider_name s).2).
Proof.
  destruct s as [[c|] w]; unfold providers_of; run; [|done].
  intros (Hnames & Hurls & Hmodels). case_decide; simpl; [done|].
  split; [|split].
  - eapply sublist_NoDup; [exact Hnames|]. apply fmap_sublist, sublist_filter.
  - eapply sublist_NoDup; [exact Hurls|]. apply fmap_sublist, sublist_filter.
  - apply Forall_forall. intros p [_ Hp]%list_elem_of_filter.
    by apply (proj1 (Forall_forall _ _) Hmodels).
Qed.


Lemma add_provider_well_formed new s :
  well_formed (providers_of s) → NoDup (default [] (models new)) →
  well_formed (providers_of (add_provider new s).2).
Proof.
  destruct s as [[c|] w]; unfold providers_of; run; [|done].
  intros (Hnames & Hurls & Hmodels) Hnew.
  destruct (check_duplicate_loop _ _ _) eqn:Hc; simpl; [done|].
  apply check_duplicate_loop_None in Hc.
  split; [|split].
  - rewrite fmap_app. apply NoDup_app. split; [done|]. split; [|apply NoDup_singleton].
    intros n [p [-> Hp]]%list_elem_of_fmap Heq%list_elem_of_singleton.
    by destruct (proj1 (Forall_forall _ _) Hc p Hp).
  - rewrite fmap_app. apply NoDup_app. split; [done|]. split; [|apply NoDup_singleton].
    intros n [p [-> Hp]]%list_elem_of_fmap Heq%list_elem_of_singleton.
    by destruct (proj1 (Forall_forall _ _) Hc p Hp).
  - apply Forall_app. split; [done|]. by constructor.
Qed.

Lemma update_router_config_providers r s :
  providers_of (update_router_config r s).2 = providers_of s.
Proof. by destruct s as [[c|] w]. Qed.

(** X1. The mutations of the store keep the provider list well formed:
    provider names pairwise distinct, base URLs pairwise distinct, no model
    listed twice by a provider. For [add_provider] the new record must not
    list a model twice itself. *)
Theorem mutations_keep_providers_well_formed (s : Store) :
  well_formed (providers_of s) →
  (∀ new, NoDup (default [] (models new)) →
          well_formed (providers_of (add_provider new s).2))
  ∧ (∀ provider_name model_name,
       well_formed (providers_of (add_model_to_provider provider_name model_name s).2))
  ∧ (∀ provider_name, well_formed (providers_of (delete_provider provider_name s).2))
  ∧ (∀ model_name, well_formed (providers_of (delete_model model_name s).2))
  ∧ (∀ router_config, well_formed (providers_of (update_router_config router_config s).2)).
Proof.
  intros Hwf. repeat match goal with |- _ ∧ _ => split end; intros.
  - by apply add_provider_well_formed.
  - by apply add_model_to_provider_well_formed.
  - by apply delete_provider_well_formed.
  - by apply delete_model_well_formed.
  - by rewrite update_router_config_providers.
Qed.

Lemma sample_config_well_formed : well_formed (providers_of (stored sample_config [])).
Proof.
  split; [|split]; vm_compute.
  - repeat constructor; rewrite ?elem_of_cons, ?elem_of_nil; intros H;
      repeat destruct H as [H|H]; done.
  - repeat constructor; rewrite ?elem_of_cons, ?elem_of_nil; intros H;
      repeat destruct H as [H|H]; done.
  - repeat constructor; rewrite ?elem_of_cons, ?elem_of_nil; intros H;
      repeat destruct H as [H|H]; done.
Defined.

Lemma mutations_keep_providers_well_formed_witness :
  well_formed (providers_of (delete_model "model2" (stored sample_config [])).2).
Proof.
  apply (mutations_keep_providers_well_formed (stored sample_config [])
           sample_config_well_formed).
Defined.

(** ** More on the update *)

(** Whatever the two mutations of the store maintain, [update_models]
    maintains. *)
Lemma update_models_maintains (I : Store → Prop) catalog :
  (∀ provider_name model, maintains I (λ _, True) (add_model_to_provider provider_name model)) →
  (∀ model, maintains I (λ _, True) (delete_model model)) →
  maintains I (λ _ : cli.report, True) (cli.update_models catalog).
Proof.
  intros Hadd Hdel.
  assert (Hread : ∀ {A} (f : Config → A),
            maintains I (λ _, True) (config ← load_config; mret (f config))).
  { intros A f [[c|] w] Hs; by run. }
  unfold cli.update_models. apply maintains_try_except.
  2:{ intros []; simpl; try done; apply maintains_raise. }
  apply maintains_bind with (R1 := λ _, True); [apply Hread|].
  intros providers _. destruct providers as [|p0 l0]; [by apply maintains_ret|].
  apply maintains_for_each; [|done].
  intros provider stats _ _. unfold cli.process_provider.
  destruct (name provider); [|apply maintains_raise].
  destruct (api_base_url provider); [|apply maintains_raise].
  destruct (catalog _ _); [|apply maintains_raise].
  case_decide; [by apply maintains_ret|].
  apply maintains_bind with (R1 := λ _, True).
  { apply maintains_for_each; [|done]. intros x acc _ _.
    unfold cli.add_loop_body. apply maintains_try_except.
    - apply maintains_bind with (R1 := λ _, True); [apply Hadd|].
      intros. by apply maintains_ret.
    - intros []; simpl; try done; by apply maintains_ret. }
  intros stats1 _.
  apply maintains_bind with (R1 := λ _, True); [apply Hread|].
  intros r _.
  apply maintains_bind with (R1 := λ _, True); [|intros; by apply maintains_ret].
  apply maintains_for_each; [|done]. intros x acc _ _.
  unfold cli.remove_loop_body. case_decide; [|by apply maintains_ret].
  apply maintains_try_except.
  - apply maintains_bind with (R1 := λ _, True); [apply Hdel|].
    intros. by apply maintains_ret.
  - intros []; simpl; try done; by apply maintains_ret.
Qed.

(** X2. However [update_models] ends, a well-formed provider list is well
    formed afterwards. *)
Theorem update_models_keeps_providers_well_formed
    (catalog : string → option string → outcome (list string)) (s : Store) :
  well_formed (providers_of s) →
  well_formed (providers_of (cli.update_models catalog s).2).
Proof.
  intros Hwf.
  apply (update_models_maintains (λ s, well_formed (providers_of s)) catalog); [| |done].
  - intros pn m s' Hs'. split; [|done]. by apply add_model_to_provider_well_formed.
  - intros m s' Hs'. split; [|done]. by apply delete_model_well_formed.
Qed.

Lemma update_models_keeps_providers_well_formed_witness :
  well_formed (providers_of (cli.update_models only_m2 (stored sample_config [])).2).
Proof.
  apply (update_models_keeps_providers_well_formed only_m2 (stored sample_config [])
           sample_config_well_formed).
Defined.

Lemma same_frame_refl s : same_frame s s.
Proof.
  split; [done|]. split; [done|].
  apply Forall_Forall2_diag, Forall_forall. by intros p _.
Qed.

Lemma same_frame_trans s1 s2 s3 : same_frame s1 s2 → same_frame s2 s3 → same_frame s1 s3.
Proof.
  intros (Hr1 & Hk1 & Hp1) (Hr2 & Hk2 & Hp2). split; [congruence|]. split; [congruence|].
  revert Hp2. generalize (providers_of s3). induction Hp1 as [|p1 p2 l1 l2 Hk _ IH].
  - by inversion 1.
  - intros l3. inversion 1 as [|? p3 ? l3' Hk' Hl3]; subst.
    constructor; [|by apply IH].
    destruct Hk as (?&?&?&?), Hk' as (?&?&?&?). repeat split; congruence.
Qed.

Lemma add_model_to_provider_same_frame provider_name model_name s :
  same_frame s (add_model_to_provider provider_name model_name s).2.
Proof.
  destruct s as [[c|] w]; run; [|apply same_frame_refl].
  destruct (first_named provider_name (default [] (Providers c))) as [[i p]|] eqn:Hf.
  - pose proof (add_model_loop_found provider_name model_name _ _ _ Hf) as Hl.
    case_decide; rewrite Hl; simpl; [apply same_frame_refl|].
    split; [done|]. split; [done|]. unfold providers_of. simpl.
    apply list_find_Some in Hf as (Hi & _ & _).
    rewrite <- (list_insert_id _ _ _ Hi) at 1.
    apply Forall2_insert; [|done].
    apply Forall_Forall2_diag, Forall_forall. by intros ? _.
  - apply add_model_loop_NoSuchProvider with (mn := model_name) in Hf.
    rewrite Hf. apply same_frame_refl.
Qed.

Lemma delete_model_same_frame model_name s :
  same_frame s (delete_model model_name s).2.
Proof.
  destruct s as [[c|] w]; run; [|apply same_frame_refl].
  destruct (existsb _ _); simpl; [|apply same_frame_refl].
  split; [done|]. split; [done|]. unfold providers_of. simpl.
  apply Forall2_fmap_r, Forall_Forall2_diag, Forall_forall. intros p _.
  unfold delete_model_in, compose. by case_decide.
Qed.

(** X3. However [update_models] ends, it has changed nothing but lists of
    models: the router section and the other top-level keys are as before,
    and the providers are the same in number and order, each with its name,
    base URL, API key and other fields. *)
Theorem update_models_changes_models_only
    (catalog : string → option string → outcome (list string)) (s : Store) :
  same_frame s (cli.update_models catalog s).2.
Proof.
  apply (update_models_maintains (same_frame s) catalog); [| |apply same_frame_refl].
  - intros pn m s' Hs'. split; [|done].
    eapply same_frame_trans; [exact Hs'|apply add_model_to_provider_same_frame].
  - intros m s' Hs'. split; [|done].
    eapply same_frame_trans; [exact Hs'|apply delete_model_same_frame].
Qed.

(** ** More on the store: deletions and the router section *)

Lemma length_filter_all {A : Type} (P : A → Prop) `{∀ x, Decision (P x)} (l : list A) :
  length (filter P l) = length l ↔ Forall P l.
Proof.
  induction l as [|x l IH]; [by split|].
  destruct (decide (P x)) as [Hx|Hx].
  - rewrite filter_cons_True by done. simpl. rewrite Forall_cons. split.
    + intros [= Hl]. split; [done|]. by apply IH.
    + intros [_ Hl]. f_equal. by apply IH.
  - rewrite filter_cons_False by done. simpl. split.
    + pose proof (length_filter P l). lia.
    + by intros [? _]%Forall_cons.
Qed.

Lemma first_named_filter_out provider_name providers :
  first_named provider_name (filter (λ p, name p ≠ Some provider_name) providers) = None.
Proof.
  unfold first_named. apply list_find_None, Forall_forall.
  by intros p [Hp _]%list_elem_of_filter.
Qed.

(** X4. [delete_provider] raises "provider not found", the store unchanged,
    exactly when no provider has the name. Otherwise it writes the document
    without the providers of that name, all of them, the others in their
    order, and no provider of that name is left. *)
Theorem delete_provider_removes_every_match
    (config : Config) (log : list Config) (provider_name : string) :
  let providers := default [] (Providers config) in
  let s := stored config log in
  let rest := filter (λ p, name p ≠ Some provider_name) providers in
  (first_named provider_name providers = None ∧
   delete_provider provider_name s = (Raise (ValueError (ProviderNotFound provider_name)), s))
  ∨ (is_Some (first_named provider_name providers) ∧
     delete_provider provider_name s = (Return (), written (with_providers config rest) log) ∧
     first_named provider_name rest = None ∧ rest `sublist_of` providers).
Proof.
  intros providers s rest. subst s. run. fold providers. fold rest.
  case_decide as Hlen.
  - left. split; [|done]. apply list_find_None.
    apply (length_filter_all (λ p, name p ≠ Some provider_name)) in Hlen.
    eapply Forall_impl; [exact Hlen|]. by intros p Hp.
  - right. split; [|split; [done|split]].
    + destruct (first_named provider_name providers) eqn:Hf; [done|].
      destruct Hlen. apply length_filter_all.
      apply list_find_None in Hf. eapply Forall_impl; [exact Hf|]. by intros p Hp.
    + apply first_named_filter_out.
    + apply sublist_filter.
Qed.

(** X5. [delete_model] of the store raises "model not found", the store
    unchanged, exactly when no provider lists the model. Otherwise it writes
    a document in which every provider has lost the first occurrence of the
    model and nothing else; where a provider listed it once, it lists it no
    more. *)
Theorem delete_model_removes_from_every_provider
    (config : Config) (log : list Config) (model_name : string) :
  let providers := default [] (Providers config) in
  let s := stored config log in
  (Forall (λ p, model_name ∉ default [] (models p)) providers ∧
   delete_model model_name s = (Raise (ValueError (ModelNotFound model_name)), s))
  ∨ (Exists (λ p, model_name ∈ default [] (models p)) providers ∧
     ∃ s', delete_model model_name s = (Return (), s') ∧
       Forall2 (λ p p',
                  name p' = name p ∧ api_base_url p' = api_base_url p
                  ∧ api_key p' = api_key p
                  ∧ default [] (models p') = list_remove_first model_name (default [] (models p))
                  ∧ (NoDup (default [] (models p)) → model_name ∉ default [] (models p')))
               providers (providers_of s')).
Proof.
  intros providers s. subst s.
  destruct (Forall_Exists_dec (λ p, model_name ∉ default [] (models p))
              (λ p, model_name ∈ default [] (models p))
              (λ p, match decide (model_name ∈ default [] (models p)) with
                    | left H => right H | right H => left H end) providers) as [Hall|Hex].
  - left. split; [done|]. run. fold providers.
    replace (existsb (has_model model_name) providers) with false; [done|].
    symmetry. apply not_true_is_false. intros (p & Hp & Hm)%existsb_exists.
    apply bool_decide_eq_true in Hm. apply list_elem_of_In in Hp.
    by apply (proj1 (Forall_forall _ _) Hall p Hp).
  - right. split; [done|]. eexists. split.
    { run. fold providers. by rewrite (existsb_has_model _ _ Hex). }
    unfold providers_of. simpl. fold providers.
    apply Forall2_fmap_r, Forall_Forall2_diag, Forall_forall. intros p _.
    unfold delete_model_in, compose. case_decide as Hin; simpl.
    + repeat split; try done. apply list_remove_first_NoDup_gone.
    + repeat split; try done.
      clear -Hin. induction (default [] (models p)) as [|y l IH]; [done|].
      simpl. apply not_elem_of_cons in Hin as [? ?]. rewrite decide_False by done.
      f_equal. by apply IH.
Qed.

(** ** More on the commands: failures, the missing file, what is left alone *)














(** X8. Without the file, every operation of the store raises
    [FileNotFoundError] and every command that gets to reading it prints
    the error and exits; none creates the file. *)
Theorem missing_file_is_reported (log : list Config) :
  let s := no_file log in
  get_router_config s = (Raise FileNotFoundError, s)
  ∧ get_providers s = (Raise FileNotFoundError, s)
  ∧ get_all_models s = (Raise FileNotFoundError, s)
  ∧ (∀ r, update_router_config r s = (Raise FileNotFoundError, s))
  ∧ (∀ p, add_provider p s = (Raise FileNotFoundError, s))
  ∧ (∀ p m, add_model_to_provider p m s = (Raise FileNotFoundError, s))
  ∧ (∀ p, delete_provider p s = (Raise FileNotFoundError, s))
  ∧ (∀ m, delete_model m s = (Raise FileNotFoundError, s))
  ∧ (∀ subprocess_run rt v no_restart,
       rt ∈ ["default"; "background"; "think"; "longContext"; "webSearch"] →
       cli.change_router subprocess_run rt v no_restart s
       = (Raise (SystemExit ErrorFileNotFound), s))
  ∧ (∀ rt, rt ∈ ["background"; "think"; "longContext"; "webSearch"] →
       cli.delete_router rt true s = (Raise (SystemExit ErrorFileNotFound), s))
  ∧ (∀ m, cli.delete_model m true s = (Raise (SystemExit ErrorFileNotFound), s))
  ∧ (∀ n, cli.set_long_context_threshold n s = (Raise (SystemExit ErrorFileNotFound), s))
  ∧ (∀ requests_get n u k,
       cli.add_provider requests_get n u k s = (Raise (SystemExit ErrorFileNotFound), s))
  ∧ (∀ p m, cli.add_model p m s = (Raise (SystemExit ErrorFileNotFound), s))
  ∧ (∀ p, cli.delete_provider p true s = (Raise (SystemExit ErrorFileNotFound), s))
  ∧ (∀ catalog, cli.update_models catalog s = (Raise (SystemExit ErrorFileNotFound), s)).
Proof.
  intros s. subst s. repeat match goal with |- _ ∧ _ => split end; try done.
  - intros run rt v nr Hv. unfold cli.change_router. rewrite bool_decide_true by done. simpl.
    by destruct (PyStr.split1 _ _) as [[? ?]|].
  - intros rt Hv. unfold cli.delete_router. by rewrite bool_decide_true by done.
Qed.

Lemma missing_file_is_reported_witness :
  cli.delete_router "think" true (no_file []) = (Raise (SystemExit ErrorFileNotFound), no_file []).
Proof.
  destruct (missing_file_is_reported []) as (_&_&_&_&_&_&_&_&_&H&_).
  apply H. apply list_elem_of_further, list_elem_of_here.
Defined.

(** ** More on the queries: models by provider *)

Lemma dict_lookup_set {V : Type} k k' (v : V) d :
  dict_lookup k (dict_set k' v d) = if decide (k' = k) then Some v else dict_lookup k d.
Proof.
  induction d as [|[k0 v0] d IH]; simpl.
  - by destruct (decide (k' = k)).
  - destruct (decide (k0 = k')) as [->|Hne]; simpl.
    + by destruct (decide (k' = k)).
    + destruct (decide (k0 = k)) as [->|Hne']; [by rewrite decide_False by done|].
      exact IH.
Qed.

Lemma dict_set_fresh {V : Type} k (v : V) d :
  k ∉ d.*1 → dict_set k v d = d ++ [(k, v)].
Proof.
  induction d as [|[k0 v0] d IH]; [done|]. simpl.
  intros [Hne Hk]%not_elem_of_cons. rewrite decide_False by done. f_equal. by apply IH.
Qed.

Lemma get_all_models_loop_KeyError providers acc :
  Exists (λ p, name p = None) providers →
  get_all_models_loop providers acc = Raise (KeyError "name").
Proof.
  intros H. revert acc. induction H as [p l Hp|p l _ IH]; intros acc; simpl.
  - by rewrite Hp.
  - destruct (name p); [apply IH|done].
Qed.

Lemma get_all_models_loop_lookup providers acc provider_name :
  Forall (λ p, is_Some (name p)) providers →
  ∃ d, get_all_models_loop providers acc = Return d
    ∧ dict_lookup provider_name d
      = match last_named provider_name providers with
        | Some p => Some (default [] (models p))
        | None => dict_lookup provider_name acc
        end.
Proof.
  unfold last_named. intros H. revert acc.
  induction H as [|p l [n Hn] _ IH]; intros acc; simpl; [eauto|].
  rewrite Hn. destruct (IH (dict_set n (default [] (models p)) acc)) as (d & -> & Hd).
  exists d. split; [done|]. rewrite Hd, dict_lookup_set.
  destruct (decide (name p = Some provider_name)) as [Hp|Hp].
  - rewrite filter_cons_True by done. rewrite last_cons.
    destruct (last _); [done|]. rewrite decide_True by congruence. done.
  - rewrite filter_cons_False by done.
    destruct (last _); [done|]. rewrite decide_False by congruence. done.
Qed.

Lemma get_all_models_loop_distinct providers acc :
  Forall (λ p, is_Some (name p)) providers →
  NoDup (acc.*1 ++ omap name providers) →
  get_all_models_loop providers acc
  = Return (acc ++ omap (λ p, n ← name p; Some (n, default [] (models p))) providers).
Proof.
  intros H. revert acc. induction H as [|p l [n Hn] _ IH]; intros acc Hnd; simpl.
  - by rewrite app_nil_r.
  - simpl in Hnd. rewrite Hn in *. simpl in *.
    apply NoDup_app in Hnd as (Hacc & Hdisj & Hl).
    apply NoDup_cons in Hl as [Hn' Hl].
    rewrite dict_set_fresh.
    2:{ intros Hin. apply (Hdisj n Hin). apply list_elem_of_here. }
    rewrite IH.
    + by rewrite <- app_assoc.
    + rewrite fmap_app. simpl. rewrite <- app_assoc. simpl.
      apply NoDup_app. split; [done|]. split; [|by constructor].
      intros x Hx. apply Hdisj. done.
Qed.

Lemma get_all_models_stored config log :
  get_all_models (stored config log)
  = (get_all_models_loop (default [] (Providers config)) [], stored config log).
Proof. run. by destruct (get_all_models_loop _ _). Qed.

(** X9. [validate_provider_model] raises [KeyError] when a provider has no
    name. When all have one, it answers for the last provider of the given
    name, where [add_model_to_provider] works on the first: it is true
    exactly when that last provider lists the model, and false when no
    provider has the name. It never changes the store. *)
Theorem validate_provider_model_asks_the_last
    (config : Config) (log : list Config) (provider_name model_name : string) :
  let providers := default [] (Providers config) in
  let s := stored config log in
  (Exists (λ p, name p = None) providers →
   validate_provider_model provider_name model_name s = (Raise (KeyError "name"), s))
  ∧ (Forall (λ p, is_Some (name p)) providers →
     ∃ b, validate_provider_model provider_name model_name s = (Return b, s)
       ∧ (b = true ↔ ∃ p, last_named provider_name providers = Some p
                          ∧ model_name ∈ default [] (models p))).
Proof.
  intros providers s. subst s. split.
  - intros H. unfold validate_provider_model, mbind, M_bind.
    rewrite get_all_models_stored. fold providers.
    by rewrite (get_all_models_loop_KeyError _ _ H).
  - intros H. destruct (get_all_models_loop_lookup providers [] provider_name H)
      as (d & Hd & Hl).
    eexists. split.
    { unfold validate_provider_model, mbind, M_bind.
      rewrite get_all_models_stored. fold providers. rewrite Hd. reflexivity. }
    rewrite Hl. rewrite bool_decide_eq_true.
    destruct (last_named provider_name providers) as [p|]; simpl.
    + split; [eauto|]. by intros (p' & [= <-] & ?).
    + split; [by intros ?%elem_of_nil|]. by intros (p' & ? & _).
Qed.

Lemma validate_provider_model_asks_the_last_witness :
  ∃ b, validate_provider_model "provider1" "model2" (stored sample_config [])
       = (Return b, stored sample_config [])
    ∧ (b = true ↔ ∃ p, last_named "provider1" (default [] (Providers sample_config)) = Some p
                       ∧ "model2" ∈ default [] (models p)).
Proof.
  apply (proj2 (validate_provider_model_asks_the_last sample_config [] "provider1" "model2")).
  repeat constructor; vm_compute; eauto.
Defined.

Lemma omap_name_models_listing model_name providers :
  Forall (λ p, is_Some (name p)) providers →
  Some <$> (filter (λ item : string * list string, model_name ∈ item.2)
              (omap (λ p, n ← name p; Some (n, default [] (models p))) providers)).*1
  = name <$> listing model_name providers.
Proof.
  unfold listing. induction 1 as [|p l [n Hn] _ IH]; [done|]. simpl. rewrite Hn. simpl.
  destruct (decide (model_name ∈ default [] (models p))) as [Hin|Hin].
  - rewrite !filter_cons_True by done. simpl. rewrite Hn. f_equal. exact IH.
  - rewrite !filter_cons_False by done. exact IH.
Qed.

(** X10. When every provider has a name and the names are pairwise
    distinct, [find_providers_for_model] returns the names of the providers
    that list the model, in the order of the providers, and leaves the store
    as it is. *)
Theorem find_providers_for_model_lists_in_order
    (config : Config) (log : list Config) (model_name : string) :
  let providers := default [] (Providers config) in
  let s := stored config log in
  Forall (λ p, is_Some (name p)) providers →
  NoDup (name <$> providers) →
  ∃ found, find_providers_for_model model_name s = (Return found, s)
    ∧ Some <$> found = name <$> listing model_name providers.
Proof.
  intros providers s Hnamed Hnd. subst s.
  assert (Hnd' : NoDup (([] : list (string * list string)).*1 ++ omap name providers)).
  { simpl. apply (NoDup_fmap_1 Some). 
    replace (Some <$> omap name providers) with (name <$> providers); [done|].
    clear Hnd. induction Hnamed as [|p l [n Hn] _ IH]; [done|].
    simpl. rewrite Hn. simpl. f_equal. exact IH. }
  eexists. split.
  { unfold find_providers_for_model, mbind, M_bind.
    rewrite get_all_models_stored. fold providers.
    rewrite (get_all_models_loop_distinct _ _ Hnamed Hnd'). reflexivity. }
  simpl. by apply omap_name_models_listing.
Qed.

Lemma find_providers_for_model_lists_in_order_witness :
  ∃ found, find_providers_for_model "model2" (stored sample_config [])
           = (Return found, stored sample_config [])
    ∧ Some <$> found = name <$> listing "model2" (default [] (Providers sample_config)).
Proof.
  apply (find_providers_for_model_lists_in_order sample_config [] "model2").
  - repeat constructor; vm_compute; eauto.
  - apply sample_config_well_formed.
Defined.

(** ** More on the commands: assigning and un-setting a router type *)

Lemma dict_set_keys {V : Type} k (v : V) d :
  (dict_set k v d).*1 = if decide (k ∈ d.*1) then d.*1 else d.*1 ++ [k].
Proof.
  induction d as [|[k0 v0] d IH]; [done|]. cbn [dict_set].
  destruct (decide (k0 = k)) as [->|Hne].
  - rewrite !fmap_cons. cbn [fst]. rewrite decide_True by apply list_elem_of_here. done.
  - rewrite !fmap_cons, IH. cbn [fst]. destruct (decide (k ∈ d.*1)) as [Hin|Hin].
    + rewrite decide_True by (by apply list_elem_of_further). done.
    + rewrite decide_False; [done|]. rewrite not_elem_of_cons. split; [congruence|done].
Qed.

Lemma get_all_models_loop_keys providers acc d :
  get_all_models_loop providers acc = Return d → NoDup acc.*1 → NoDup d.*1.
Proof.
  revert acc. induction providers as [|p l IH]; intros acc; simpl.
  - by intros [= <-].
  - destruct (name p) as [n|]; [|done]. intros Hd Hacc. apply (IH _ Hd).
    rewrite dict_set_keys. case_decide as Hin; [done|].
    apply NoDup_app. split; [done|]. split; [|apply NoDup_singleton].
    intros x Hx ->%list_elem_of_singleton. done.
Qed.

Lemma dict_lookup_elem_of {V : Type} k (v : V) d :
  NoDup d.*1 → (k, v) ∈ d → dict_lookup k d = Some v.
Proof.
  induction d as [|[k0 v0] d IH]; simpl; [by intros _ ?%elem_of_nil|].
  intros [Hk0 Hd]%NoDup_cons [[= -> ->]|Hin]%elem_of_cons.
  - by rewrite decide_True.
  - rewrite decide_False; [by apply IH|]. intros ->. apply Hk0.
    apply list_elem_of_fmap. by exists (k, v).
Qed.

(** What [change_router] computes before it writes: the assignment, from
    the store as it is. *)
Lemma change_router_returns subprocess_run config log router_type model_value no_restart s' :
  cli.change_router subprocess_run router_type model_value no_restart (stored config log)
  = (Return (), s') →
  ∃ provider_name model_name,
    s' = written (with_router config
                    (<[router_type := JStr (provider_name +:+ "," +:+ model_name)]>
                       (default ∅ (Router config)))) log
    ∧ validate_provider_model provider_name model_name (stored config log)
      = (Return true, stored config log).
Proof.
  intros H%change_router_returns_without_restart. revert H.
  unfold cli.change_router, cli.stop_service. case_bool_decide as Hvalid; [simpl|done].
  unfold try_except, validate_provider_model, find_providers_for_model, cli.list_models.
  unfold mbind, M_bind.
  destruct (get_all_models_loop (default [] (Providers config)) []) as [d|e] eqn:Hd.
  2:{ destruct (PyStr.split1 _ _) as [[? ?]|]; rewrite get_all_models_stored, Hd;
        by destruct e. }
  destruct (PyStr.split1 _ _) as [[part0 part1]|]; rewrite get_all_models_stored, Hd; simpl.
  - case_bool_decide as Hin; simpl.
    + intros [= <-]. eexists _, _. split; [reflexivity|].
      by rewrite bool_decide_true.
    + rewrite get_all_models_stored, Hd. done.
  - destruct ((filter _ d).*1) as [|p1 [|p2 l]] eqn:Hf; simpl.
    + rewrite get_all_models_stored, Hd. done.
    + intros [= <-]. eexists _, _. split; [reflexivity|].
      assert (Hitem : ∃ ms, (p1, ms) ∈ d ∧ PyStr.strip model_value ∈ ms).
      { assert (p1 ∈ (filter (λ item : string * list string,
                                PyStr.strip model_value ∈ item.2) d).*1) as Hp1.
        { rewrite Hf. apply list_elem_of_here. }
        apply list_elem_of_fmap in Hp1 as ([k ms] & -> & [Hms Hk]%list_elem_of_filter).
        eauto. }
      destruct Hitem as (ms & Hitem & Hms).
      rewrite (dict_lookup_elem_of _ _ _ (get_all_models_loop_keys _ _ _ Hd (NoDup_nil_2)) Hitem).
      by rewrite bool_decide_true.
    + rewrite get_all_models_stored, Hd. done.
Qed.

(** X11. When [change_router] returns, it has written one document, in
    which the router type holds [provider,model] for a provider and a model
    that [validate_provider_model] accepted in the store as it was; every
    other entry of the router section, the providers and the other keys are
    as before. *)
Theorem change_router_assigns_a_validated_pair
    (subprocess_run : list string → outcome unit)
    (config : Config) (log : list Config) (router_type model_value : string)
    (no_restart : bool) (s' : Store) :
  cli.change_router subprocess_run router_type model_value no_restart (stored config log)
  = (Return (), s') →
  ∃ provider_name model_name,
    router_of s' !! router_type = Some (JStr (provider_name +:+ "," +:+ model_name))
    ∧ validate_provider_model provider_name model_name (stored config log)
      = (Return true, stored config log)
    ∧ (∀ k, k ≠ router_type → router_of s' !! k = default ∅ (Router config) !! k)
    ∧ providers_of s' = default [] (Providers config)
    ∧ (other_keys <$> file s') = Some (other_keys config)
    ∧ length (writes s') = S (length log).
Proof.
  intros (p & m & -> & Hv)%change_router_returns. exists p, m.
  unfold router_of, providers_of. simpl. split; [apply lookup_insert_eq|].
  split; [done|]. split; [|split; [done|split; [done|]]].
  - intros k Hk. by apply lookup_insert_ne.
  - rewrite length_app. simpl. lia.
Qed.

Lemma change_router_assigns_a_validated_pair_witness :
  ∃ provider_name model_name,
    router_of (written (with_router sample_config
                          (<["think" := JStr "provider1,model1"]>
                             (default ∅ (Router sample_config)))) [])
      !! "think" = Some (JStr (provider_name +:+ "," +:+ model_name))
    ∧ validate_provider_model provider_name model_name (stored sample_config [])
      = (Return true, stored sample_config [])
    ∧ (∀ k, k ≠ "think" →
         router_of (written (with_router sample_config
                               (<["think" := JStr "provider1,model1"]>
                                  (default ∅ (Router sample_config)))) []) !! k
         = default ∅ (Router sample_config) !! k)
    ∧ providers_of (written (with_router sample_config
                               (<["think" := JStr "provider1,model1"]>
                                  (default ∅ (Router sample_config)))) [])
      = default [] (Providers sample_config)
    ∧ (other_keys <$> file (written (with_router sample_config
                               (<["think" := JStr "provider1,model1"]>
                                  (default ∅ (Router sample_config)))) []))
      = Some (other_keys sample_config)
    ∧ length (writes (written (with_router sample_config
                               (<["think" := JStr "provider1,model1"]>
                                  (default ∅ (Router sample_config)))) []))
      = S (length ([] : list Config)).
Proof.
  apply (change_router_assigns_a_validated_pair ccr_stops sample_config [] "think" " model1 "
           false).
  vm_compute. reflexivity.
Defined.




(** X13. Whatever its arguments and however it ends, [delete_router]
    leaves the providers and every entry of the router section other than
    the router type and [longContextThreshold] as they were; the entry of
    [default] is never removed. *)
Theorem delete_router_leaves_the_rest
    (s : Store) (router_type : string) (confirmed : bool) :
  let s' := (cli.delete_router router_type confirmed s).2 in
  providers_of s' = providers_of s
  ∧ router_of s' !! "default" = router_of s !! "default"
  ∧ (∀ k, k ≠ router_type → k ≠ "longContextThreshold" →
       router_of s' !! k = router_of s !! k).
Proof.
  assert (Hrest : ∀ k, k ≠ router_type → k ≠ "longContextThreshold" →
            router_of (cli.delete_router router_type confirmed s).2 !! k = router_of s !! k
            ∧ providers_of (cli.delete_router router_type confirmed s).2 = providers_of s).
  { intros k Hk Ht. destruct s as [[c|] w]; unfold cli.delete_router.
    2:{ case_bool_decide; simpl; [|done]. by destruct confirmed. }
    case_bool_decide as Hvalid; simpl; [|done]. destruct confirmed; simpl; [|done].
    run_cli. case_bool_decide; simpl; [|done].
    split; [|done]. rewrite lookup_delete_ne by done.
    case_match; [|done]. by rewrite lookup_delete_ne. }
  intros s'. subst s'.
  destruct (decide (router_type = "default")) as [->|Hne].
  - split; [|split].
    + by destruct s as [[c|] w].
    + by destruct s as [[c|] w].
    + intros k Hk Ht. by apply Hrest.
  - split; [|split].
    + by apply (Hrest "default").
    + by apply (Hrest "default").
    + intros k Hk Ht. by apply Hrest.
Qed.

(** ** More on strings and on the endpoint probe *)

Lemma append_cons c s t : String c s +:+ t = String c (s +:+ t).
Proof. reflexivity. Qed.

Lemma endswith_cons c s t :
  PyStr.endswith (String c s) t = String.eqb (String c s) t || PyStr.endswith s t.
Proof. reflexivity. Qed.

Lemma endswith_refl s : PyStr.endswith s s = true.
Proof. destruct s; cbn [PyStr.endswith]; by rewrite String.eqb_refl. Qed.

Lemma endswith_app s t : PyStr.endswith (s +:+ t) t = true.
Proof.
  induction s as [|c s IH]; [apply endswith_refl|].
  rewrite append_cons. cbn [PyStr.endswith]. rewrite IH. apply orb_true_r.
Qed.

Lemma endswith_app_both s a b :
  PyStr.endswith s a = true → PyStr.endswith (s +:+ b) (a +:+ b) = true.
Proof.
  induction s as [|c s IH]; cbn [PyStr.endswith].
  - rewrite orb_false_r. intros ->%String.eqb_eq. apply endswith_refl.
  - intros [->%String.eqb_eq|H]%orb_true_iff; [apply endswith_refl|].
    rewrite append_cons. cbn [PyStr.endswith]. rewrite (IH H). apply orb_true_r.
Qed.

Lemma endswith_length s t : PyStr.endswith s t = true → (String.length t ≤ String.length s)%nat.
Proof.
  induction s as [|c s IH]; cbn [PyStr.endswith].
  - rewrite orb_false_r. by intros ->%String.eqb_eq.
  - intros [->%String.eqb_eq|H]%orb_true_iff; [done|]. specialize (IH H). simpl. lia.
Qed.

Lemma substring_0_0 s : substring 0 0 s = "".
Proof. by destruct s. Qed.

(** [s[:-len(t)] + t == s] for an [s] that ends with [t]. *)
Lemma drop_last_app_suffix s t :
  PyStr.endswith s t = true → PyStr.drop_last (String.length t) s +:+ t = s.
Proof.
  unfold PyStr.drop_last. induction s as [|c s IH]; cbn [PyStr.endswith].
  - rewrite orb_false_r. intros <-%String.eqb_eq. done.
  - intros [<-%String.eqb_eq|H]%orb_true_iff.
    + by rewrite Nat.sub_diag, substring_0_0.
    + pose proof (endswith_length _ _ H).
      replace (String.length (String c s) - String.length t)%nat
        with (S (String.length s - String.length t)) by (simpl; lia).
      cbn [substring]. rewrite append_cons. f_equal. by apply IH.
Qed.

Lemma length_append s t :
  String.length (s +:+ t) = (String.length s + String.length t)%nat.
Proof. induction s as [|c s IH]; [done|]. rewrite append_cons. cbn [String.length]. by rewrite IH. Qed.

(** [(s + t)[:-len(t)] == s] *)
Lemma drop_last_app s t : PyStr.drop_last (String.length t) (s +:+ t) = s.
Proof.
  unfold PyStr.drop_last. rewrite length_append.
  replace (String.length s + String.length t - String.length t)%nat
    with (String.length s) by lia.
  induction s as [|c s IH]; [apply substring_0_0|].
  rewrite append_cons. cbn [String.length substring]. by rewrite IH.
Qed.

Lemma rstrip_with_fixed p s :
  PyStr.rstrip_with p (PyStr.rstrip_with p s) = PyStr.rstrip_with p s.
Proof.
  induction s as [|c s IH]; [done|]. cbn [PyStr.rstrip_with].
  destruct (PyStr.rstrip_with p s) as [|a r] eqn:Hr.
  - destruct (p c) eqn:Hc; [done|]. cbn [PyStr.rstrip_with]. by rewrite Hc.
  - cbn [PyStr.rstrip_with]. cbn [PyStr.rstrip_with] in IH. by rewrite IH.
Qed.

Lemma rstrip_slash_no_trailing_slash s :
  PyStr.endswith (PyStr.rstrip_slash s) "/" = false.
Proof.
  unfold PyStr.rstrip_slash. induction s as [|c s IH]; [done|]. cbn [PyStr.rstrip_with].
  destruct (PyStr.rstrip_with _ s) as [|a r] eqn:Hr.
  - destruct (Ascii.eqb "/" c) eqn:Hc; [done|]. cbn.
    rewrite Ascii.eqb_sym, Hc. done.
  - rewrite endswith_cons, IH. simpl. by destruct (Ascii.eqb c "/").
Qed.

Lemma rstrip_slash_unchanged s :
  PyStr.endswith s "/" = false → PyStr.rstrip_slash s = s.
Proof.
  unfold PyStr.rstrip_slash. induction s as [|c s IH]; [done|].
  cbn [PyStr.endswith PyStr.rstrip_with].
  intros [Hc Hs]%orb_false_iff. rewrite (IH Hs).
  destruct s as [|a r]; [|done].
  destruct (Ascii.eqb_spec "/" c) as [<-|]; [done|done].
Qed.

(** X14. [rstrip('/')] as [validate_provider_endpoint] uses it: the result
    never ends with a slash, a string that does not end with a slash is
    returned as it is, and stripping twice is stripping once. *)
Theorem rstrip_slash_strips_every_trailing_slash (s : string) :
  PyStr.endswith (PyStr.rstrip_slash s) "/" = false
  ∧ (PyStr.endswith s "/" = false → PyStr.rstrip_slash s = s)
  ∧ PyStr.rstrip_slash (PyStr.rstrip_slash s) = PyStr.rstrip_slash s.
Proof.
  split; [apply rstrip_slash_no_trailing_slash|]. split; [apply rstrip_slash_unchanged|].
  apply rstrip_with_fixed.
Qed.

Lemma rstrip_slash_strips_every_trailing_slash_witness :
  PyStr.rstrip_slash "http://example.com/v1" = "http://example.com/v1".
Proof.
  apply (proj1 (proj2 (rstrip_slash_strips_every_trailing_slash "http://example.com/v1"))).
  reflexivity.
Defined.

(** X15. The two URLs probed for a base URL: the first always ends with
    [/v1/models] and the second with [/models]; when the base URL ends with
    [/v1], the first is the base URL followed by [/models] and the second
    is built from the base URL without its [/v1], which put back gives the
    base URL. *)
Theorem probe_urls_end_with_models (base_url : string) :
  PyStr.endswith (probe_urls base_url).1 "/v1/models" = true
  ∧ PyStr.endswith (probe_urls base_url).2 "/models" = true
  ∧ (PyStr.endswith base_url "/v1" = true →
     probe_urls base_url
     = (base_url +:+ "/models", PyStr.drop_last 3 base_url +:+ "/models")
     ∧ PyStr.drop_last 3 base_url +:+ "/v1" = base_url).
Proof.
  unfold probe_urls. destruct (PyStr.endswith base_url "/v1") eqn:Hv1; simpl.
  - split; [apply (endswith_app_both base_url "/v1" "/models" Hv1)|].
    split; [apply endswith_app|]. intros _. split; [done|].
    apply (drop_last_app_suffix base_url "/v1" Hv1).
  - destruct (PyStr.contains "/v1/" base_url); simpl.
    + split; [apply endswith_app|]. split; [apply endswith_app|done].
    + split; [apply endswith_app|]. split; [apply endswith_app|done].
Qed.

Lemma probe_urls_end_with_models_witness :
  probe_urls "http://example.com/v1"
  = ("http://example.com/v1" +:+ "/models",
     PyStr.drop_last 3 "http://example.com/v1" +:+ "/models")
  ∧ PyStr.drop_last 3 "http://example.com/v1" +:+ "/v1" = "http://example.com/v1".
Proof.
  apply (proj2 (proj2 (probe_urls_end_with_models "http://example.com/v1"))).
  reflexivity.
Defined.

(** X16. Whatever the network answers, [validate_provider_endpoint]
    returns the base URL (the raw URL without trailing slashes), or the base
    URL followed by [/v1] when it does not end with [/v1] yet, or the base
    URL without its final [/v1] when it ends with it: never a second [/v1],
    never anything else. An answer to the first probe that is neither 2xx
    nor 4xx ends the detection with the base URL. *)
Theorem validate_provider_endpoint_results
    (requests_get : string → option string → http_reply) (raw : string) :
  let base_url := PyStr.rstrip_slash raw in
  let result := validate_provider_endpoint requests_get raw in
  (if PyStr.endswith base_url "/v1"
   then result = base_url ∨ result +:+ "/v1" = base_url
   else result = base_url ∨ result = base_url +:+ "/v1")
  ∧ (∀ response, requests_get (probe_urls base_url).1 None = Replied response →
       ¬ (200 ≤ status_code response < 500) ∨ 300 ≤ status_code response < 400 →
       result = base_url).
Proof.
  intros base_url result. subst result. unfold validate_provider_endpoint. fold base_url.
  pose proof (drop_last_app_suffix base_url "/v1") as Hdrop. simpl String.length in Hdrop.
  destruct (probe_urls base_url) as [v1_url no_v1_url]. simpl. split.
  - destruct (PyStr.endswith base_url "/v1") eqn:Hv1;
      destruct (requests_get v1_url None) as [r1|];
      destruct (requests_get no_v1_url None) as [r2|];
      repeat (case_match; simplify_eq; simpl; eauto); eauto.
  - intros r -> Hcode.
    replace ((200 <=? status_code r) && (status_code r <? 300)) with false
      by (symmetry; apply andb_false_iff; rewrite Z.leb_gt, Z.ltb_ge; lia).
    replace (status_code r =? 404) with false by (symmetry; apply Z.eqb_neq; lia).
    replace ((400 <=? status_code r) && (status_code r <? 500)) with false
      by (symmetry; apply andb_false_iff; rewrite Z.leb_gt, Z.ltb_ge; lia).
    done.
Qed.

Lemma validate_provider_endpoint_results_witness :
  validate_provider_endpoint (always_status 500) "http://example.com/"
  = PyStr.rstrip_slash "http://example.com/".
Proof.
  apply (proj2 (validate_provider_endpoint_results (always_status 500) "http://example.com/")
           {| status_code := 500; json_body := None |}).
  - reflexivity.
  - left. simpl. lia.
Defined.

(** ** More on the catalogs: fetching and updating without an answer *)




(** X18. One trailing slash makes no difference to
    [fetch_models_from_endpoint]: for a base URL that does not end with a
    slash, the base URL followed by a slash gives the same requests, the
    same result and the same warnings. *)
Theorem fetch_models_from_endpoint_ignores_one_trailing_slash
    (requests_get : string → option string → http_reply)
    (base_url : string) (api_key : option string) :
  PyStr.endswith base_url "/" = false →
  cli.fetch_models_from_endpoint requests_get (base_url +:+ "/") api_key
  = cli.fetch_models_from_endpoint requests_get base_url api_key.
Proof.
  intros H. unfold cli.fetch_models_from_endpoint.
  rewrite endswith_app, H. 
  change 1%nat with (String.length "/"). by rewrite drop_last_app.
Qed.

Lemma fetch_models_from_endpoint_ignores_one_trailing_slash_witness :
  cli.fetch_models_from_endpoint
    (always_body (JList [JStr "model1"])) ("http://example.com" +:+ "/") None
  = cli.fetch_models_from_endpoint
      (always_body (JList [JStr "model1"])) "http://example.com" None.
Proof.
  apply (fetch_models_from_endpoint_ignores_one_trailing_slash
           (always_body (JList [JStr "model1"])) "http://example.com" None).
  reflexivity.
Defined.






(** ** More on the commands: adding a provider, deleting providers and models *)



(** X21. Deleting a provider or a model never touches the assignments of
    the router section, which may go on naming what was deleted: however
    they end, [delete_provider] leaves the router section as it was, and
    [delete_model] leaves every entry of it other than
    [longContextThreshold] as it was. *)
Theorem deletions_leave_router_assignments
    (s : Store) (provider_name model_name : string) (confirmed : bool) :
  router_of (cli.delete_provider provider_name confirmed s).2 = router_of s
  ∧ router_of (delete_provider provider_name s).2 = router_of s
  ∧ router_of (delete_model model_name s).2 = router_of s
  ∧ ∀ k, k ≠ "longContextThreshold" →
      router_of (cli.delete_model model_name confirmed s).2 !! k = router_of s !! k.
Proof.
  destruct s as [[c|] w].
  2:{ repeat match goal with |- _ ∧ _ => split end; try done; by destruct confirmed. }
  split; [|split; [|split]].
  - unfold cli.delete_provider. destruct confirmed; [|done]. run_cli.
    repeat (case_match; simplify_eq; simpl; try done).
  - run_cli. repeat (case_match; simplify_eq; simpl; try done).
  - run_cli. repeat (case_match; simplify_eq; simpl; try done).
  - intros k Hk. unfold cli.delete_model. destruct confirmed; [|done].
    unfold cli.is_long_context_model. run_cli.
    repeat (simpl in *; case_match; simplify_eq; try done).
    all: simpl in *; simplify_eq; simpl; by rewrite ?lookup_delete_ne by done.
Qed.

(** ** How the commands compose: an assignment, then an update or a deletion *)

Lemma lstrip_with_fixed p s :
  PyStr.lstrip_with p (PyStr.lstrip_with p s) = PyStr.lstrip_with p s.
Proof.
  induction s as [|c s IH]; [done|]. cbn [PyStr.lstrip_with].
  destruct (p c) eqn:Hc; [done|]. cbn [PyStr.lstrip_with]. by rewrite Hc.
Qed.

Lemma rstrip_with_lstrip_with p s :
  PyStr.rstrip_with p s = s → PyStr.rstrip_with p (PyStr.lstrip_with p s) = PyStr.lstrip_with p s.
Proof.
  induction s as [|c s IH]; [done|]. cbn [PyStr.lstrip_with].
  destruct (p c) eqn:Hc; [|done]. intros H. apply IH.
  cbn [PyStr.rstrip_with] in H. rewrite Hc in H.
  destruct (PyStr.rstrip_with p s) as [|a r]; [done|]. by injection H.
Qed.

(** [s.strip().strip() == s.strip()] *)
Lemma strip_fixed s : PyStr.strip (PyStr.strip s) = PyStr.strip s.
Proof.
  unfold PyStr.strip.
  rewrite (rstrip_with_lstrip_with _ _ (rstrip_with_fixed _ s)).
  apply lstrip_with_fixed.
Qed.

Lemma strip_keeps_comma_free s :
  PyStr.contains "," s = false → PyStr.contains "," (PyStr.strip s) = false.
Proof.
  intros H. unfold PyStr.strip.
  assert (Hr : PyStr.contains "," (PyStr.rstrip_with PyStr.isspace s) = false).
  { induction s as [|c s IH]; [done|]. rewrite contains_comma_cons in H.
    apply orb_false_iff in H as [Hc Hs]. specialize (IH Hs). cbn [PyStr.rstrip_with].
    destruct (PyStr.rstrip_with PyStr.isspace s) as [|a r].
    - destruct (PyStr.isspace c); [done|]. by rewrite contains_comma_cons, Hc.
    - by rewrite contains_comma_cons, Hc, IH. }
  revert Hr. generalize (PyStr.rstrip_with PyStr.isspace s). clear.
  induction s as [|c s IH]; [done|]. cbn [PyStr.lstrip_with]. intros H.
  destruct (PyStr.isspace c); [|done]. apply IH.
  rewrite contains_comma_cons in H. by apply orb_false_iff in H as [_ ?].
Qed.

Lemma split1_None_contains s :
  PyStr.split1 PyStr.comma s = None → PyStr.contains "," s = false.
Proof.
  induction s as [|a s IH]; [done|]. rewrite contains_comma_cons. cbn [PyStr.split1].
  destruct (Ascii.eqb a PyStr.comma); [done|].
  destruct (PyStr.split1 PyStr.comma s) as [[h t]|]; [done|]. intros _. by apply IH.
Qed.

(** The assignment [change_router] stores, with what it is made of: names
    without surrounding whitespace, a pair that [validate_provider_model]
    accepts, and a model name that holds a comma only if the value given
    does. *)
Lemma change_router_returns_stripped
    subprocess_run config log router_type model_value no_restart s' :
  cli.change_router subprocess_run router_type model_value no_restart (stored config log)
  = (Return (), s') →
  ∃ provider_name model_name,
    s' = written (with_router config
                    (<[router_type := JStr (provider_name +:+ "," +:+ model_name)]>
                       (default ∅ (Router config)))) log
    ∧ router_type ∈ ["default"; "background"; "think"; "longContext"; "webSearch"]
    ∧ PyStr.strip model_name = model_name
    ∧ (PyStr.split1 PyStr.comma model_value = None → model_name = PyStr.strip model_value)
    ∧ Exists (λ p, model_name ∈ default [] (models p)) (default [] (Providers config)).
Proof.
  intros H%change_router_returns_without_restart. revert H.
  unfold cli.change_router, cli.stop_service. case_bool_decide as Hvalid; [simpl|done].
  unfold try_except, validate_provider_model, find_providers_for_model, cli.list_models.
  unfold mbind, M_bind.
  destruct (get_all_models_loop (default [] (Providers config)) []) as [d|e] eqn:Hd.
  2:{ destruct (PyStr.split1 _ _) as [[? ?]|]; rewrite get_all_models_stored, Hd;
        by destruct e. }
  assert (Hlisted : ∀ k ms m, (k, ms) ∈ d → m ∈ ms →
            Exists (λ p, m ∈ default [] (models p)) (default [] (Providers config))).
  { intros k ms m Hin Hm.
    assert (Hgen : ∀ providers acc d, get_all_models_loop providers acc = Return d →
              (k, ms) ∈ d →
              (k, ms) ∈ acc ∨ Exists (λ p, default [] (models p) = ms) providers).
    { clear. induction providers as [|p l IH]; intros acc d; simpl.
      - intros [= <-]. by left.
      - destruct (name p) as [n|]; [|done]. intros Hd Hin.
        destruct (IH _ _ Hd Hin) as [Hset|Hex]; [|by right; apply Exists_cons_tl].
        destruct (decide ((k, ms) ∈ acc)) as [|Hacc]; [by left|]. right.
        apply Exists_cons_hd.
        clear -Hset Hacc. induction acc as [|[k0 v0] acc IHa]; simpl in Hset.
        + by apply list_elem_of_singleton in Hset as [= _ <-].
        + destruct (decide (k0 = n)) as [->|Hne].
          * apply elem_of_cons in Hset as [[= _ <-]|Hset]; [done|].
            exfalso. apply Hacc. by apply list_elem_of_further.
          * apply elem_of_cons in Hset as [Heq|Hset].
            { exfalso. apply Hacc. rewrite Heq. apply list_elem_of_here. }
            apply IHa; [done|]. intros Hin. apply Hacc. by apply list_elem_of_further. }
    destruct (Hgen _ _ _ Hd Hin) as [Hnil|Hex]; [by apply elem_of_nil in Hnil|].
    eapply Exists_impl; [exact Hex|]. by intros p ->. }
  assert (Hlookup : ∀ k ms, dict_lookup k d = Some ms → (k, ms) ∈ d).
  { clear. intros k ms. induction d as [|[k0 v0] d IH]; simpl; [done|].
    destruct (decide (k0 = k)) as [->|Hne].
    - intros [= ->]. apply list_elem_of_here.
    - intros H. by apply list_elem_of_further, IH. }
  destruct (PyStr.split1 _ _) as [[part0 part1]|]; rewrite get_all_models_stored, Hd; simpl.
  - case_bool_decide as Hin; simpl.
    + intros [= <-]. eexists _, _. split; [reflexivity|]. split; [done|].
      split; [apply strip_fixed|]. split; [done|].
      destruct (dict_lookup (PyStr.strip part0) d) as [ms|] eqn:Hms;
        [|by apply elem_of_nil in Hin].
      by apply (Hlisted _ ms _ (Hlookup _ _ Hms)).
    + rewrite get_all_models_stored, Hd. done.
  - destruct ((filter _ d).*1) as [|p1 [|p2 l]] eqn:Hf; simpl.
    + rewrite get_all_models_stored, Hd. done.
    + intros [= <-]. eexists _, _. split; [reflexivity|]. split; [done|].
      split; [apply strip_fixed|]. split; [done|].
      assert (p1 ∈ (filter (λ item : string * list string,
                              PyStr.strip model_value ∈ item.2) d).*1) as Hp1.
      { rewrite Hf. apply list_elem_of_here. }
      apply list_elem_of_fmap in Hp1 as ([k ms] & -> & [Hms Hk]%list_elem_of_filter).
      by apply (Hlisted k ms).
    + rewrite get_all_models_stored, Hd. done.
Qed.

Lemma rsplit1_assignment provider_name model_name :
  PyStr.contains "," model_name = false →
  ∃ h, PyStr.rsplit1 PyStr.comma (provider_name +:+ "," +:+ model_name)
       = Some (h, model_name).
Proof.
  intros H. apply (endswith_comma_rsplit1 _ _ H). apply endswith_app.
Qed.

Lemma used_models_assignment router router_type provider_name model_name :
  router_type ≠ "longContextThreshold" →
  PyStr.contains "," model_name = false →
  PyStr.strip model_name = model_name →
  router !! router_type = Some (JStr (provider_name +:+ "," +:+ model_name)) →
  model_name ∈ cli.used_models router.
Proof.
  intros Hrt Hm Hstrip Hr. unfold cli.used_models.
  apply elem_of_list_to_set, list_elem_of_omap.
  exists (router_type, JStr (provider_name +:+ "," +:+ model_name)).
  split; [by apply elem_of_map_to_list|].
  unfold cli.used_model. destruct (String.eqb_spec router_type "longContextThreshold"); [done|].
  destruct (rsplit1_assignment provider_name model_name Hm) as [h ->]. by rewrite Hstrip.
Qed.

Lemma update_models_protects catalog config log m :
  m ∈ cli.used_models (default ∅ (Router config)) →
  Forall2 (keeps_model m) (default [] (Providers config))
    (providers_of (cli.update_models catalog (stored config log)).2)
  ∧ ∀ stats, (cli.update_models catalog (stored config log)).1 = Return stats →
      never_removed m stats.
Proof.
  intros Hm. destruct (update_models_run catalog config log) as [Hs Hr].
  pose proof (maintains_for_each (protects m (stored config log)) (never_removed m)
                (default [] (Providers config))
                (cli.process_provider catalog) cli.no_report) as Hsafe.
  destruct Hsafe with (s := stored config log) as [[_ Hkept] Hnever].
  { intros x a _ Ha.
    apply (process_provider_stable catalog m (stored config log) Hm);
      [by apply never_removed_stable|done]. }
  { intros ?. apply not_elem_of_nil. }
  { apply protects_refl. }
  split; [by rewrite Hs|]. intros stats Hstats. by apply Hnever, Hr.
Qed.

(** X22. A model that [change_router] has assigned is safe from
    [update_models]. When [change_router] returns, the router type holds
    [provider,model]; if the model name has no comma, then whatever the
    catalogs are and however the update that follows ends, every provider
    that listed the model still lists it, and the model is not reported
    removed. A bare model name given to [change_router] never has a comma. *)
Theorem assigned_model_survives_update
    (subprocess_run : list string → outcome unit)
    (catalog : string → option string → outcome (list string))
    (config : Config) (log : list Config) (router_type model_value : string)
    (no_restart : bool) (s' : Store) :
  cli.change_router subprocess_run router_type model_value no_restart (stored config log)
  = (Return (), s') →
  ∃ provider_name model_name,
    router_of s' !! router_type = Some (JStr (provider_name +:+ "," +:+ model_name))
    ∧ (PyStr.split1 PyStr.comma model_value = None → PyStr.contains "," model_name = false)
    ∧ (PyStr.contains "," model_name = false →
       Forall2 (keeps_model model_name) (providers_of s')
         (providers_of (cli.update_models catalog s').2)
       ∧ ∀ stats provider, (cli.update_models catalog s').1 = Return stats →
           (provider, model_name) ∉ cli.removed_models stats).
Proof.
  intros (p & m & Hs' & Hvalid & Hstrip & Hbare & _)%change_router_returns_stripped.
  exists p, m. split; [|split].
  - rewrite Hs'. unfold router_of. simpl. apply lookup_insert_eq.
  - intros Hsplit. rewrite (Hbare Hsplit). by apply strip_keeps_comma_free, split1_None_contains.
  - intros Hm.
    assert (Hused : m ∈ cli.used_models (default ∅ (Router (with_router config
               (<[router_type := JStr (p +:+ "," +:+ m)]> (default ∅ (Router config))))))).
    { simpl. apply (used_models_assignment _ router_type p m); [|done|done|apply lookup_insert_eq].
      by apply router_type_is_not_threshold. }
    rewrite Hs'. unfold written.
    destruct (update_models_protects catalog _ (log ++ [with_router config
               (<[router_type := JStr (p +:+ "," +:+ m)]> (default ∅ (Router config)))]) m Hused)
      as [Hkept Hnever].
    split; [exact Hkept|]. intros stats pn Hstats. by apply (Hnever stats Hstats).
Qed.

Lemma assigned_model_survives_update_witness :
  ∃ provider_name model_name,
    router_of (written (with_router sample_config
                          (<["think" := JStr "provider1,model1"]>
                             (default ∅ (Router sample_config)))) [])
      !! "think" = Some (JStr (provider_name +:+ "," +:+ model_name))
    ∧ (PyStr.split1 PyStr.comma " model1 " = None → PyStr.contains "," model_name = false)
    ∧ (PyStr.contains "," model_name = false →
       Forall2 (keeps_model model_name)
         (providers_of (written (with_router sample_config
                          (<["think" := JStr "provider1,model1"]>
                             (default ∅ (Router sample_config)))) []))
         (providers_of (cli.update_models only_m2
            (written (with_router sample_config
                          (<["think" := JStr "provider1,model1"]>
                             (default ∅ (Router sample_config)))) [])).2)
       ∧ ∀ stats provider,
           (cli.update_models only_m2
              (written (with_router sample_config
                          (<["think" := JStr "provider1,model1"]>
                             (default ∅ (Router sample_config)))) [])).1 = Return stats →
           (provider, model_name) ∉ cli.removed_models stats).
Proof.
  apply (assigned_model_survives_update ccr_stops only_m2 sample_config [] "think" " model1 "
           false).
  vm_compute. reflexivity.
Defined.




(** ** More on the update: a removal reaches every provider *)










